(** * Event tracking script: a shallow embedding of [website/scripts/tracking.js]

    The script classifies and describes DOM elements, formats one log line per
    event, appends it to a buffer kept in [localStorage] and, past a size
    threshold, exports the buffer as a downloaded text file.

    Conventions of the embedding.
    - A JavaScript string is the list of its UTF-16 code units ([jsstring]);
      [length], [substring], [trim], [includes], [split] and
      [encodeURIComponent] all work on code units, as they do in the language.
    - A JavaScript function that can throw returns a [completion]; a function
      with effects is a state transformer over [World] that keeps the world
      as it was at the moment of the throw.
    - The browser is taken as the script expects it: [localStorage] is
      available and within quota, the page is served over http(s) so that
      [sendBeacon] accepts the endpoint, and the system clock is any sequence
      of time values.

    What the theorems establish.
    - The describer follows its five rules in order
      ([getElementDescription_id], [getElementDescription_text],
      [getElementDescription_blank_text]).
    - The classifier follows its rule list on every element whose
      [className] is a string ([determineElementType_rules]) and throws
      TypeError on SVG elements that reach the class-name checks
      ([determineElementType_svg_throws]).
    - Between exports the buffer is only appended to, in the order of the
      events ([buffer_append_only]).
    - The threshold is compared with the length read before the append
      ([saveEventToFile_threshold]); an export of a buffer that holds a lone
      surrogate throws URIError and never resets it
      ([saveEventToFile_lone_surrogate]), and the describer's cut at 27 code
      units produces such strings ([getElementDescription_cuts_pair]).
    - With the click listener registered an export re-enters itself through
      the click on its own download link ([export_reenters]).
    - The section observer logs every entry of a batch that reports the
      section as intersecting, every time, as long as no earlier entry of
      the batch throws ([sectionObserver_logs_every_view],
      [sectionObserverCallback_aborts]). *)

From Stdlib Require Import ZArith NArith List String Ascii Bool Lia.
From stdpp Require Import base option list countable gmap.

Set Warnings "-register-all,-abstract-large-number".

(** ** Completions: a value, or a thrown exception *)

Inductive Exn : Type := TypeError | URIError | RangeError.

Inductive completion (A : Type) : Type :=
| Normal (a : A)
| Throw (e : Exn).
Arguments Normal {A} a.
Arguments Throw {A} e.

Definition cbind {A B} (c : completion A) (k : A -> completion B) : completion B :=
  match c with
  | Normal a => k a
  | Throw e => Throw e
  end.

(** ** Strings *)

Definition code_unit := N.
Definition jsstring := list N.

(** The string literal [s] of the source, as code units (the source's
    literals are all ASCII). *)
Definition js (s : string) : jsstring := map N_of_ascii (list_ascii_of_string s).
Arguments js s%_string.

(** [s.length] *)
Definition jslength (s : jsstring) : Z := Z.of_nat (length s).

(** ToBoolean on a string: the empty string is the only falsy one. *)
Definition truthy (s : jsstring) : bool :=
  match s with
  | [] => false
  | _ :: _ => true
  end.

(** ToBoolean on a property that may be [undefined]. *)
Definition truthy_opt (v : option jsstring) : bool :=
  match v with
  | Some s => truthy s
  | None => false
  end.

(** WhiteSpace and LineTerminator code points of ECMAScript, the ones
    [String.prototype.trim] strips. *)
Definition isWhiteSpace (c : code_unit) : bool :=
  ((9 <=? c) && (c <=? 13) || (c =? 32) || (c =? 160) || (c =? 5760)
   || (8192 <=? c) && (c <=? 8202) || (c =? 8232) || (c =? 8233)
   || (c =? 8239) || (c =? 8287) || (c =? 12288) || (c =? 65279))%N.

Fixpoint trimStart (s : jsstring) : jsstring :=
  match s with
  | [] => []
  | c :: rest => if isWhiteSpace c then trimStart rest else s
  end.

Definition trimEnd (s : jsstring) : jsstring := rev (trimStart (rev s)).

(** [s.trim()] *)
Definition trim (s : jsstring) : jsstring := trimEnd (trimStart s).

(** [s.substring(0, n)] for a literal [n >= 0]. *)
Definition substring0 (n : nat) (s : jsstring) : jsstring := firstn n s.

(** [s.slice(0, n)] for a literal [n >= 0]. *)
Definition slice0 (n : nat) (s : jsstring) : jsstring := firstn n s.

Fixpoint startsWith (s prefix : jsstring) : bool :=
  match prefix, s with
  | [], _ => true
  | _ :: _, [] => false
  | p :: prefix', c :: s' => (p =? c)%N && startsWith s' prefix'
  end.

(** [s.includes(sub)] *)
Fixpoint includes (s sub : jsstring) : bool :=
  startsWith s sub ||
  match s with
  | [] => false
  | _ :: s' => includes s' sub
  end.

(** [s.split(sep)] for a separator of one code unit, which is what both
    calls of the source pass (a space, a slash). The result is never empty. *)
Fixpoint split (sep : code_unit) (s : jsstring) : list jsstring :=
  match s with
  | [] => [[]]
  | c :: rest =>
      if (c =? sep)%N then [] :: split sep rest
      else match split sep rest with
           | [] => [[c]]
           | piece :: pieces => (c :: piece) :: pieces
           end
  end.

(** [pieces.join(sep)] *)
Fixpoint join (sep : jsstring) (pieces : list jsstring) : jsstring :=
  match pieces with
  | [] => []
  | [piece] => piece
  | piece :: rest => piece ++ sep ++ join sep rest
  end.

(** [array.includes(x)] on an array of strings. *)
Definition array_includes (array : list jsstring) (x : jsstring) : bool :=
  existsb (fun y => bool_decide (y = x)) array.

(** *** Lower-casing *)

Definition isAscii (c : code_unit) : bool := (c <? 128)%N.

Definition asciiLower (c : code_unit) : code_unit :=
  if ((65 <=? c) && (c <=? 90))%N then (c + 32)%N else c.

(** The tag name of an HTML element is its local name in ASCII upper case. *)
Definition asciiUpper (c : code_unit) : code_unit :=
  if ((97 <=? c) && (c <=? 122))%N then (c - 32)%N else c.

(** ** URI encoding: [encodeURIComponent] *)

Definition isHighSurrogate (c : code_unit) : bool := ((55296 <=? c) && (c <=? 56319))%N.
Definition isLowSurrogate (c : code_unit) : bool := ((56320 <=? c) && (c <=? 57343))%N.

(** The code point a surrogate pair stands for. *)
Definition pairCodePoint (hi lo : code_unit) : N :=
  ((hi - 55296) * 1024 + (lo - 56320) + 65536)%N.

(** uriUnreserved of ECMAScript: ASCII letters, digits and [-_.!~*'()]. *)
Definition uriUnreserved (c : code_unit) : bool :=
  ((65 <=? c) && (c <=? 90) || (97 <=? c) && (c <=? 122) || (48 <=? c) && (c <=? 57)
   || (c =? 45) || (c =? 95) || (c =? 46) || (c =? 33) || (c =? 126)
   || (c =? 42) || (c =? 39) || (c =? 40) || (c =? 41))%N.

(** The UTF-8 octets of a code point. *)
Definition utf8Encode (cp : N) : list N :=
  (if cp <? 128 then [cp]
   else if cp <? 2048 then [192 + cp / 64; 128 + cp mod 64]
   else if cp <? 65536 then [224 + cp / 4096; 128 + (cp / 64) mod 64; 128 + cp mod 64]
   else [240 + cp / 262144; 128 + (cp / 4096) mod 64; 128 + (cp / 64) mod 64; 128 + cp mod 64])%N.

Definition hexDigit (n : N) : code_unit := (if n <? 10 then 48 + n else 55 + n)%N.

(** One octet as [%XX], upper-case hexadecimal. *)
Definition percentEscape (octet : N) : jsstring :=
  [37%N; hexDigit (octet / 16); hexDigit (octet mod 16)].

Definition escapeCodePoint (cp : N) : jsstring := concat (map percentEscape (utf8Encode cp)).

(** [encodeURIComponent(s)]: unreserved code units are kept, every other code
    point is escaped octet by octet, and a surrogate that is not part of a
    pair throws URIError. *)
Fixpoint encodeURIComponent (s : jsstring) : completion jsstring :=
  match s with
  | [] => Normal []
  | c :: rest =>
      if uriUnreserved c then
        cbind (encodeURIComponent rest) (fun r => Normal (c :: r))
      else if isLowSurrogate c then Throw URIError
      else if isHighSurrogate c then
        match rest with
        | lo :: rest' =>
            if isLowSurrogate lo then
              cbind (encodeURIComponent rest')
                    (fun r => Normal (escapeCodePoint (pairCodePoint c lo) ++ r))
            else Throw URIError
        | [] => Throw URIError
        end
      else cbind (encodeURIComponent rest) (fun r => Normal (escapeCodePoint c ++ r))
  end.

(** A string is well formed when every surrogate in it is part of a pair. *)
Fixpoint isWellFormed (s : jsstring) : bool :=
  match s with
  | [] => true
  | c :: rest =>
      if isLowSurrogate c then false
      else if isHighSurrogate c then
        match rest with
        | lo :: rest' => isLowSurrogate lo && isWellFormed rest'
        | [] => false
        end
      else isWellFormed rest
  end.

(** *** What a download of an encoded buffer holds *)

(** Every element is a code unit: 16 bits. *)
Definition isString (s : jsstring) : bool := forallb (fun c => c <? 65536)%N s.

(** The UTF-8 encoding of a string, a lone surrogate read as U+FFFD. *)
Fixpoint utf8 (s : jsstring) : list N :=
  match s with
  | [] => []
  | c :: rest =>
      if isLowSurrogate c then utf8Encode 65533 ++ utf8 rest
      else if isHighSurrogate c then
        match rest with
        | lo :: rest' =>
            if isLowSurrogate lo then utf8Encode (pairCodePoint c lo) ++ utf8 rest'
            else utf8Encode 65533 ++ utf8 rest
        | [] => utf8Encode 65533
        end
      else utf8Encode c ++ utf8 rest
  end.

Definition hexValue (c : code_unit) : option N :=
  (if (48 <=? c) && (c <=? 57) then Some (c - 48)
   else if (65 <=? c) && (c <=? 70) then Some (c - 55)
   else if (97 <=? c) && (c <=? 102) then Some (c - 87)
   else None)%N.

(** Percent-decoding, as the browser applies it to the body of a [data:]
    URL: [%XX] is the octet XX, any other code unit stands for itself. *)
Fixpoint percentDecode (s : jsstring) : list N :=
  match s with
  | [] => []
  | c :: tail =>
      if (c =? 37)%N then
        match tail with
        | h :: l :: rest =>
            match hexValue h, hexValue l with
            | Some a, Some b => (16 * a + b)%N :: percentDecode rest
            | _, _ => c :: percentDecode tail
            end
        | _ => c :: percentDecode tail
        end
      else c :: percentDecode tail
  end.

(** ** Dates: [new Date().toISOString()] *)

Local Open Scope Z_scope.

Definition msPerDay : Z := 86400000.

(** Year, month (1-12) and day of month (1-31) of the proleptic Gregorian
    calendar, from the number of days since 1970-01-01. *)
Definition civilFromDays (days : Z) : Z * Z * Z :=
  let z := days + 719468 in
  let era := z / 146097 in
  let doe := z - era * 146097 in
  let yoe := (doe - doe / 1460 + doe / 36524 - doe / 146096) / 365 in
  let doy := doe - (365 * yoe + yoe / 4 - yoe / 100) in
  let mp := (5 * doy + 2) / 153 in
  let d := doy - (153 * mp + 2) / 5 + 1 in
  let m := if mp <? 10 then mp + 3 else mp - 9 in
  let y := yoe + era * 400 + (if m <=? 2 then 1 else 0) in
  (y, m, d).

Definition digit (n : Z) : code_unit := Z.to_N (48 + n mod 10).

Definition pad2 (n : Z) : jsstring := [digit (n / 10); digit n].
Definition pad3 (n : Z) : jsstring := [digit (n / 100); digit (n / 10); digit n].
Definition pad4 (n : Z) : jsstring :=
  [digit (n / 1000); digit (n / 100); digit (n / 10); digit n].
Definition pad6 (n : Z) : jsstring :=
  [digit (n / 100000); digit (n / 10000); digit (n / 1000);
   digit (n / 100); digit (n / 10); digit n].

(** The year of an ISO date-time: four digits from 0 to 9999, a sign and six
    digits otherwise. *)
Definition isoYear (y : Z) : jsstring :=
  if (0 <=? y) && (y <=? 9999) then pad4 y
  else if y <? 0 then js "-" ++ pad6 (- y)
  else js "+" ++ pad6 y.

(** [YYYY-MM-DD] of the UTC day the time value [t] falls on. *)
Definition isoDate (t : Z) : jsstring :=
  let '(y, m, d) := civilFromDays (t / msPerDay) in
  isoYear y ++ js "-" ++ pad2 m ++ js "-" ++ pad2 d.

(** [HH:mm:ss.sss] of the time value [t] within its UTC day. *)
Definition isoTime (t : Z) : jsstring :=
  let ms := t mod msPerDay in
  pad2 (ms / 3600000) ++ js ":" ++ pad2 (ms / 60000 mod 60) ++ js ":"
    ++ pad2 (ms / 1000 mod 60) ++ js "." ++ pad3 (ms mod 1000).

(** [date.toISOString()] for the date whose time value is [t] (milliseconds
    since 1970-01-01T00:00:00Z). *)
Definition toISOString (t : Z) : jsstring :=
  isoDate t ++ js "T" ++ isoTime t ++ js "Z".

Local Close Scope Z_scope.

Example toISOString_epoch : toISOString 0%Z = js "1970-01-01T00:00:00.000Z".
Proof. reflexivity. Qed.

Example toISOString_leap_day :
  toISOString 1709251199999%Z = js "2024-02-29T23:59:59.999Z".
Proof. reflexivity. Qed.

Example toISOString_before_epoch :
  toISOString (-1)%Z = js "1969-12-31T23:59:59.999Z".
Proof. reflexivity. Qed.

Example toISOString_centuries :
  toISOString (-2203891200000)%Z = js "1900-03-01T00:00:00.000Z"
  /\ toISOString 951827696789%Z = js "2000-02-29T12:34:56.789Z"
  /\ toISOString 4133980799000%Z = js "2100-12-31T23:59:59.000Z".
Proof. repeat split. Qed.

Example toISOString_expanded_years :
  toISOString 253402300799999%Z = js "9999-12-31T23:59:59.999Z"
  /\ toISOString 253402300800000%Z = js "+010000-01-01T00:00:00.000Z"
  /\ toISOString (-62167219200000)%Z = js "0000-01-01T00:00:00.000Z"
  /\ toISOString (-62167219200001)%Z = js "-000001-12-31T23:59:59.999Z".
Proof. repeat split. Qed.

Example trim_example : trim (js "  Read more ") = js "Read more".
Proof. reflexivity. Qed.

Example split_join_example :
  join (js ".") (split 32%N (js "btn btn-primary  lg")) = js "btn.btn-primary..lg".
Proof. reflexivity. Qed.

Example encodeURIComponent_example :
  encodeURIComponent (js "a b," ++ [233; 55357; 56832]%N)
  = Normal (js "a%20b%2C%C3%A9%F0%9F%98%80").
Proof. reflexivity. Qed.

Example encodeURIComponent_lone_surrogate :
  encodeURIComponent (js "ab" ++ [55357%N]) = Throw URIError.
Proof. reflexivity. Qed.

(** ** DOM elements *)

(** [element.className]: a string on HTML elements, an [SVGAnimatedString]
    object on SVG elements. *)
Inductive ClassName : Type :=
| ClassString (s : jsstring)
| SVGAnimatedString (baseVal : jsstring).

(** The properties of an element that the script reads. [type], [alt] and
    [src] are [None] where the element's interface has no such property
    ([undefined]). *)
Module Element.
Inductive t : Type := mk {
  tagName : jsstring;
  localName : jsstring;
  id : jsstring;
  className : ClassName;
  textContent : jsstring;
  type : option jsstring;
  alt : option jsstring;
  src : option jsstring;
  parentElement : option t }.
End Element.

(** [element.closest(name)] for a type selector: the nearest inclusive
    ancestor whose local name is [name], [null] when there is none. *)
Fixpoint closest (name : jsstring) (element : Element.t) : option Element.t :=
  if bool_decide (Element.localName element = name) then Some element
  else match Element.parentElement element with
       | Some parent => closest name parent
       | None => None
       end.

(** [pieces.pop()] on the array a [split] returned ([split] never returns
    the empty array, on which [pop] gives [undefined]). *)
Definition popLast (pieces : list jsstring) : jsstring := List.last pieces [].

(** A space becomes a dot, every other code unit stays. *)
Definition dotForSpace (c : code_unit) : code_unit := if (c =? 32)%N then 46%N else c.

(** What follows the last [/] of [s]: all of [s] when it holds no [/],
    nothing when it ends in one. *)
Fixpoint afterLastSlash (s : jsstring) : jsstring :=
  match s with
  | [] => []
  | c :: rest =>
      if existsb (N.eqb 47) rest then afterLastSlash rest
      else if (c =? 47)%N then rest else c :: rest
  end.

(** Stands in for the Unicode case mapping where the theorems are applied
    to concrete elements: their tag names are ASCII and never reach it. *)
Definition asciiOnly : jsstring -> jsstring := fun s => s.

Section Tracking.

(** [String.prototype.toLowerCase] on a string with a code unit outside
    ASCII: the Unicode case mapping, which the script does not contain. *)
Variable unicodeLower : jsstring -> jsstring.

(** [s.toLowerCase()] *)
Definition toLowerCase (s : jsstring) : jsstring :=
  if forallb isAscii s then map asciiLower s else unicodeLower s.

(** ** The classifier (source lines 52-86) *)

Definition determineElementType (element : Element.t) : completion jsstring :=
  let tagName := toLowerCase (Element.tagName element) in
  if bool_decide (tagName = js "a") then Normal (js "link")
  else if bool_decide (tagName = js "button") then Normal (js "button")
  else if bool_decide (tagName = js "img") then Normal (js "image")
  else if bool_decide (tagName = js "input") then
    if truthy_opt (Element.type element)
    then Normal (js "input-" ++ default [] (Element.type element))
    else Normal (js "input")
  else if bool_decide (tagName = js "select") then Normal (js "dropdown")
  else if bool_decide (tagName = js "textarea") then Normal (js "textarea")
  else if bool_decide (is_Some (closest (js "nav") element)) then Normal (js "navigation")
  else if bool_decide (tagName = js "li") then Normal (js "list-item")
  else if array_includes [js "h1"; js "h2"; js "h3"; js "h4"; js "h5"; js "h6"] tagName
  then Normal (js "heading")
  else if bool_decide (is_Some (closest (js "form") element)) then Normal (js "form-element")
  else
    match Element.className element with
    | ClassString className =>
        if truthy className then
          if includes className (js "btn") then Normal (js "button")
          else if includes className (js "card") then Normal (js "card")
          else if includes className (js "icon") then Normal (js "icon")
          else Normal tagName
        else Normal tagName
    | SVGAnimatedString _ =>
        (* an object is truthy, and it has no [includes] method to call *)
        Throw TypeError
    end.

(** ** The describer (source lines 93-121) *)

(** Rules 3 to 5 (lines 109-120): the class names, then for an image its
    [alt] or the last segment of its [src], then the tag name. *)
Definition describeWithoutText (element : Element.t) : completion jsstring :=
  match Element.className element with
  | ClassString ((_ :: _) as className) =>
      Normal (js "." ++ join (js ".") (split 32%N className))
  | _ =>
      if bool_decide (toLowerCase (Element.tagName element) = js "img") then
        if truthy_opt (Element.alt element) then Normal (default [] (Element.alt element))
        else match Element.src element with
             | Some src => Normal (popLast (split 47%N src))
             | None => Throw TypeError
             end
      else Normal (toLowerCase (Element.tagName element))
  end.

Definition getElementDescription (element : Element.t) : completion jsstring :=
  if truthy (Element.id element) then Normal (js "#" ++ Element.id element)
  else
    let textContent := trim (Element.textContent element) in
    if truthy (Element.textContent element) && truthy textContent then
      if (30 <? jslength textContent)%Z
      then Normal (substring0 27 textContent ++ js "...")
      else Normal textContent
    else describeWithoutText element.

(** ** The browser: what the script reads and writes *)

Record Blob : Type := mkBlob { blobText : jsstring; blobType : jsstring }.

(** A download the browser started: the [download] and [href] attributes of
    the link that was activated. *)
Record Download : Type := mkDownload { filename : jsstring; href : jsstring }.

Record World : Type := mkWorld {
  (** the time values the system clock gives to successive [new Date()] *)
  clock : nat -> Z;
  clockReads : nat;
  (** lines written by [console.log] *)
  console : list jsstring;
  (** blobs queued by [navigator.sendBeacon], with their endpoint *)
  beacons : list (jsstring * Blob);
  localStorage : gmap jsstring jsstring;
  downloads : list Download;
  (** whether the document's click listener of line 11 is registered *)
  clickListener : bool;
  (** the elements [sectionObserver] observes, and the images with a
      [load] listener *)
  observed : list Element.t;
  loadListeners : list Element.t;
  (** exceptions that left a listener and were reported by the browser *)
  reported : list Exn }.

Definition JS (A : Type) : Type := World -> completion A * World.

Definition ret {A} (a : A) : JS A := fun w => (Normal a, w).

Definition throw {A} (e : Exn) : JS A := fun w => (Throw e, w).

Definition bind {A B} (m : JS A) (k : A -> JS B) : JS B :=
  fun w =>
    match m w with
    | (Normal a, w') => k a w'
    | (Throw e, w') => (Throw e, w')
    end.

Notation "'let*' x ':=' m 'in' k" := (bind m (fun x => k))
  (at level 10, x binder, m at level 100, k at level 200, only parsing).

(** A pure computation that may throw, run in the world. *)
Definition lift {A} (c : completion A) : JS A := fun w => (c, w).

(** The world after one more reading of the clock. *)
Definition tick (w : World) : World :=
  mkWorld (clock w) (S (clockReads w)) (console w) (beacons w) (localStorage w)
          (downloads w) (clickListener w) (observed w) (loadListeners w) (reported w).

Definition withConsole (line : jsstring) (w : World) : World :=
  mkWorld (clock w) (clockReads w) (console w ++ [line]) (beacons w) (localStorage w)
          (downloads w) (clickListener w) (observed w) (loadListeners w) (reported w).

Definition withBeacon (url : jsstring) (blob : Blob) (w : World) : World :=
  mkWorld (clock w) (clockReads w) (console w) (beacons w ++ [(url, blob)]) (localStorage w)
          (downloads w) (clickListener w) (observed w) (loadListeners w) (reported w).

Definition withItem (key value : jsstring) (w : World) : World :=
  mkWorld (clock w) (clockReads w) (console w) (beacons w)
          (<[key := value]> (localStorage w))
          (downloads w) (clickListener w) (observed w) (loadListeners w) (reported w).

Definition withDownload (d : Download) (w : World) : World :=
  mkWorld (clock w) (clockReads w) (console w) (beacons w) (localStorage w)
          (downloads w ++ [d]) (clickListener w) (observed w) (loadListeners w) (reported w).

Definition withReport (e : Exn) (w : World) : World :=
  mkWorld (clock w) (clockReads w) (console w) (beacons w) (localStorage w)
          (downloads w) (clickListener w) (observed w) (loadListeners w) (reported w ++ [e]).

(** [new Date().toISOString()]: one reading of the clock. *)
Definition newDateISO : JS jsstring :=
  fun w => (Normal (toISOString (clock w (clockReads w))), tick w).

(** [console.log(line)] *)
Definition console_log (line : jsstring) : JS unit :=
  fun w => (Normal tt, withConsole line w).

(** [navigator.sendBeacon(url, blob)]: queued and forgotten. *)
Definition sendBeacon (url : jsstring) (blob : Blob) : JS unit :=
  fun w => (Normal tt, withBeacon url blob w).

(** [localStorage.getItem(key)]: [null] for a key that is not stored. *)
Definition getItem (key : jsstring) : JS (option jsstring) :=
  fun w => (Normal (localStorage w !! key), w).

(** [localStorage.setItem(key, value)] *)
Definition setItem (key value : jsstring) : JS unit :=
  fun w => (Normal tt, withItem key value w).

(** The browser starts the download a hidden link's activation asks for. *)
Definition startDownload (d : Download) : JS unit :=
  fun w => (Normal tt, withDownload d w).

(** The browser runs a listener: an exception that leaves it is reported
    and goes no further. *)
Definition runListener (listener : JS unit) : JS unit :=
  fun w =>
    match listener w with
    | (Normal _, w') => (Normal tt, w')
    | (Throw e, w') => (Normal tt, withReport e w')
    end.

Definition htmlElement : Element.t :=
  Element.mk (js "HTML") (js "html") [] (ClassString []) [] None None None None.

(** [document.body] *)
Definition bodyElement : Element.t :=
  Element.mk (js "BODY") (js "body") [] (ClassString []) [] None None None (Some htmlElement).

(** The link of lines 168-174 as the classifier and the describer see it:
    [document.createElement('a')], appended to the body. Its [href],
    [download] and [style] are not among the properties they read. *)
Definition downloadLink : Element.t :=
  Element.mk (js "A") (js "a") [] (ClassString []) [] (Some []) None None (Some bodyElement).

(** [element.click()] on a link attached to the document. The click event
    is dispatched first: it bubbles to the document and reaches the click
    listener when one is registered. The link's activation behaviour, the
    download its [download] and [href] attributes ask for, follows. *)
Definition click (listener : Element.t -> JS unit) (element : Element.t)
           (attributes : Download) : JS unit :=
  let* registered := (fun w => (Normal (clickListener w), w)) in
  let* _ := (if registered : bool then runListener (listener element) else ret tt) in
  startDownload attributes.

Definition storageKey : jsstring := js "trackingEvents".

(** The line feed the source writes as ['\n']. *)
Definition LF : jsstring := [10%N].

(** ** Logging, persistence and export (source lines 11-20 and 129-184)

    [stack] is the number of nested calls of the script's functions that the
    engine's call stack still has room for; a call with no room left throws
    RangeError. (The classifier and the describer call nothing of the script
    and return before [logEvent] is entered; they are not charged, and
    neither are the calls of built-in functions: the theorems ask for room
    enough and say nothing of how a run ends where the stack does.) The
    four functions call each other in a cycle:
    [element.click()] in [downloadTrackingData] dispatches a click event at
    a link attached to the document, the event bubbles to the document, and
    the listener of line 11, once registered, logs that click too. *)
Fixpoint logEvent (stack : nat) (eventType objectType objectDescription : jsstring)
  : JS unit :=
  match stack with
  | O => throw RangeError
  | S stack' =>
      let* timestamp := newDateISO in
      let logEntry :=
        timestamp ++ js ", " ++ eventType ++ js ", " ++ objectType ++ js ":"
          ++ objectDescription in
      let* _ := console_log logEntry in
      saveEventToFile stack' logEntry
  end

with saveEventToFile (stack : nat) (eventData : jsstring) : JS unit :=
  match stack with
  | O => throw RangeError
  | S stack' =>
      let blob := mkBlob (eventData ++ LF) (js "text/plain") in
      let* _ := sendBeacon (js "/tracking-endpoint") blob in
      let* stored := getItem storageKey in
      let storedEvents := default [] stored in
      let* _ := setItem storageKey (storedEvents ++ eventData ++ LF) in
      if (10000 <? jslength storedEvents)%Z
      then downloadTrackingData stack'
      else ret tt
  end

with downloadTrackingData (stack : nat) : JS unit :=
  match stack with
  | O => throw RangeError
  | S stack' =>
      let* stored := getItem storageKey in
      let trackingData := default [] stored in
      let* encoded := lift (encodeURIComponent trackingData) in
      let* date := newDateISO in
      (* lines 168-174: the link, hidden and appended to the body *)
      let element := downloadLink in
      let attributes :=
        mkDownload (js "tracking_data_" ++ slice0 10 date ++ js ".txt")
                   (js "data:text/plain;charset=utf-8," ++ encoded) in
      let* _ := click (onDocumentClick stack') element attributes in
      (* line 180 removes the link again *)
      setItem storageKey []
  end

with onDocumentClick (stack : nat) (clickedElement : Element.t) : JS unit :=
  match stack with
  | O => throw RangeError
  | S stack' =>
      let* elementType := lift (determineElementType clickedElement) in
      let* description := lift (getElementDescription clickedElement) in
      logEvent stack' (js "click") elementType description
  end.


(** [array.forEach(f)]: a throw of [f] ends the loop. *)
Fixpoint forEach {A} (array : list A) (f : A -> JS unit) : JS unit :=
  match array with
  | [] => ret tt
  | x :: rest => let* _ := f x in forEach rest f
  end.

(** A call of one of the script's functions, which needs room for one more
    frame on the call stack. *)
Definition call {A} (stack : nat) (body : nat -> JS A) : JS A :=
  match stack with
  | O => throw RangeError
  | S stack' => body stack'
  end.

Record IntersectionObserverEntry : Type :=
  mkEntry { isIntersecting : bool; target : Element.t }.

(** The callback of [sectionObserver] (source lines 24-31). *)
Definition sectionObserverCallback (stack : nat) (entries : list IntersectionObserverEntry)
  : JS unit :=
  call stack (fun stack' =>
    forEach entries (fun entry =>
      call stack' (fun stack'' =>
        if isIntersecting entry then
          let sectionId :=
            if truthy (Element.id (target entry)) then Element.id (target entry)
            else js "unnamed-section" in
          logEvent stack'' (js "view") (js "section") sectionId
        else ret tt))).

(** The [load] listener of an image (source lines 41-43). *)
Definition onImageLoad (stack : nat) (img : Element.t) : JS unit :=
  call stack (fun stack' =>
    logEvent stack' (js "view") (js "image")
             (if truthy_opt (Element.alt img) then default [] (Element.alt img)
              else js "unnamed-image")).

(** What the DOMContentLoaded listener reads from the document. *)
Record Document : Type := mkDocument {
  title : jsstring;
  sections : list Element.t;
  images : list Element.t }.

(** The DOMContentLoaded listener (source lines 6-45): the page view is
    logged before the click listener is registered. *)
Definition onDOMContentLoaded (stack : nat) (document : Document) : JS unit :=
  call stack (fun stack' =>
    let* _ := logEvent stack' (js "view") (js "page") (title document) in
    fun w =>
      (Normal tt,
       mkWorld (clock w) (clockReads w) (console w) (beacons w) (localStorage w)
               (downloads w) true (observed w ++ sections document)
               (loadListeners w ++ images document) (reported w))).


(** ** The worlds one call leads to *)

(** The stored log buffer: [localStorage.getItem('trackingEvents') || '']. *)
Definition buffer (w : World) : jsstring := default [] (localStorage w !! storageKey).

(** The line [logEvent] builds at clock reading [t]. *)
Definition logLine (t : Z) (eventType objectType objectDescription : jsstring) : jsstring :=
  toISOString t ++ js ", " ++ eventType ++ js ", " ++ objectType ++ js ":"
    ++ objectDescription.

(** The world after lines 146-153 of [saveEventToFile]: the beacon is
    queued and the record, with its line feed, is at the end of the buffer. *)
Definition appended (eventData : jsstring) (w : World) : World :=
  withItem storageKey (buffer w ++ eventData ++ LF)
    (withBeacon (js "/tracking-endpoint") (mkBlob (eventData ++ LF) (js "text/plain")) w).

(** The world after the browser ran a listener. *)
Definition afterListener (listener : JS unit) (w : World) : World :=
  match listener w with
  | (Normal _, w') => w'
  | (Throw e, w') => withReport e w'
  end.

(** The link [downloadTrackingData] builds at clock reading [t] for the
    encoded buffer. *)
Definition exportLink (t : Z) (encoded : jsstring) : Download :=
  mkDownload (js "tracking_data_" ++ slice0 10 (toISOString t) ++ js ".txt")
             (js "data:text/plain;charset=utf-8," ++ encoded).

(** The line the click listener logs for the link of an export. *)
Definition isLinkClick (line : jsstring) : Prop :=
  exists t, line = logLine t (js "click") (js "link") (js "a").

(** What a run of the script's functions may change when it logs nothing
    but clicks on export links: it adds such lines to the console, queues
    beacons, adds downloads, and leaves the clock, the listener and every
    other storage key alone. *)
Record quiet (w w' : World) : Prop := mkQuiet {
  quiet_clock : clock w' = clock w;
  quiet_listener : clickListener w' = clickListener w;
  quiet_console : exists lines, console w' = console w ++ lines /\ Forall isLinkClick lines;
  quiet_beacons : exists bs, beacons w' = beacons w ++ bs;
  quiet_downloads : exists ds, downloads w' = downloads w ++ ds;
  quiet_storage : forall key, key <> storageKey -> localStorage w' !! key = localStorage w !! key }.

(** ** Runs of several events *)

(** An event to log: its kind, the type of its object and the description. *)
Definition Event : Type := jsstring * jsstring * jsstring.

(** The events are logged one after the other, each from a listener of its
    own that the browser runs. *)
Definition logAll (stack : nat) (events : list Event) : JS unit :=
  forEach events (fun '(eventType, objectType, objectDescription) =>
    runListener (logEvent stack eventType objectType objectDescription)).

(** The lines of the events, stamped with the clock readings from the
    [n]-th on, one reading for each event. *)
Fixpoint expectedLines (clock : nat -> Z) (n : nat) (events : list Event) : list jsstring :=
  match events with
  | [] => []
  | (eventType, objectType, objectDescription) :: rest =>
      logLine (clock n) eventType objectType objectDescription
        :: expectedLines clock (S n) rest
  end.

(** The records as the buffer holds them, each with its line feed. *)
Definition asBuffer (lines : list jsstring) : jsstring :=
  concat (map (fun line => line ++ LF) lines).

(** The beacon [saveEventToFile] queues for a record. *)
Definition beaconOf (line : jsstring) : jsstring * Blob :=
  (js "/tracking-endpoint", mkBlob (line ++ LF) (js "text/plain")).

(** The browser delivers the observer's batches one after the other: each
    batch, with an entry for every observed section whose intersection
    changed, goes to one run of [sectionObserver]'s callback. *)
Definition deliver (stack : nat) (batches : list (list IntersectionObserverEntry))
  : JS unit :=
  forEach batches (fun entries => runListener (sectionObserverCallback stack entries)).

(** [s.endsWith(suffix)] *)
Definition endsWith (s suffix : jsstring) : bool := startsWith (rev s) (rev suffix).

(** The [view, section:hero] records among the lines. *)
Definition isHeroView (line : jsstring) : bool := endsWith line (js ", view, section:hero").

Definition heroViews (lines : list jsstring) : nat := length (List.filter isHeroView lines).

(** The entry reports the section with id [hero] as intersecting. *)
Definition reportsHero (entry : IntersectionObserverEntry) : bool :=
  isIntersecting entry && bool_decide (Element.id (target entry) = js "hero").

(** [s] holds no space. *)
Definition noSpace (s : jsstring) : bool := forallb (fun c => negb (c =? 32)%N) s.

(** The entry's section has an id as HTML allows it: well-formed UTF-16
    without a space (or no id). *)
Definition plainId (entry : IntersectionObserverEntry) : bool :=
  isWellFormed (Element.id (target entry)) && noSpace (Element.id (target entry)).

(** ** The classifier's rules, as the specification words them

    Each rule either names a category or does not apply; the first rule
    that applies wins, and the lower-case tag name is the fallback. An
    element is in a nav or a form when it is one or has one as an ancestor;
    its class names are its class attribute, whatever object carries it. *)

Definition Rule : Type := Element.t -> option jsstring.

Definition tagIs (name : jsstring) (element : Element.t) : bool :=
  bool_decide (toLowerCase (Element.tagName element) = name).

Definition tagRule (name category : jsstring) : Rule :=
  fun element => if tagIs name element then Some category else None.

Definition inputRule : Rule :=
  fun element =>
    if tagIs (js "input") element then
      match Element.type element with
      | Some ((_ :: _) as type) => Some (js "input-" ++ type)
      | _ => Some (js "input")
      end
    else None.

Definition insideRule (name category : jsstring) : Rule :=
  fun element =>
    match closest name element with
    | Some _ => Some category
    | None => None
    end.

Definition headingRule : Rule :=
  fun element =>
    if array_includes [js "h1"; js "h2"; js "h3"; js "h4"; js "h5"; js "h6"]
                      (toLowerCase (Element.tagName element))
    then Some (js "heading") else None.

Definition classNames (element : Element.t) : jsstring :=
  match Element.className element with
  | ClassString s => s
  | SVGAnimatedString baseVal => baseVal
  end.

Definition classRule (fragment category : jsstring) : Rule :=
  fun element => if includes (classNames element) fragment then Some category else None.

Definition classifierRules : list Rule :=
  [ tagRule (js "a") (js "link");
    tagRule (js "button") (js "button");
    tagRule (js "img") (js "image");
    inputRule;
    tagRule (js "select") (js "dropdown");
    tagRule (js "textarea") (js "textarea");
    insideRule (js "nav") (js "navigation");
    tagRule (js "li") (js "list-item");
    headingRule;
    insideRule (js "form") (js "form-element");
    classRule (js "btn") (js "button");
    classRule (js "card") (js "card");
    classRule (js "icon") (js "icon") ].

Fixpoint firstMatch (rules : list Rule) (element : Element.t) (fallback : jsstring)
  : jsstring :=
  match rules with
  | [] => fallback
  | rule :: rest =>
      match rule element with
      | Some category => category
      | None => firstMatch rest element fallback
      end
  end.

Definition classifyByRules (element : Element.t) : jsstring :=
  firstMatch classifierRules element (toLowerCase (Element.tagName element)).

(** The category of the first rule that applies, if one does. *)
Fixpoint firstApplicable (rules : list Rule) (element : Element.t) : option jsstring :=
  match rules with
  | [] => None
  | rule :: rest =>
      match rule element with
      | Some category => Some category
      | None => firstApplicable rest element
      end
  end.

(** The rules that do not look at the class names: the tags, nav and form. *)
Definition rulesBeforeClasses : list Rule := take 10 classifierRules.

(** ** Sample elements and worlds *)

Definition htmlElementOf (tag : string) (id className textContent : jsstring)
           (parent : Element.t) : Element.t :=
  Element.mk (map asciiUpper (js tag)) (js tag) id (ClassString className) textContent
             None None None (Some parent).
Arguments htmlElementOf tag%_string.

Definition svgElementOf (tag : string) (classAttribute : jsstring) (parent : Element.t)
  : Element.t :=
  Element.mk (js tag) (js tag) [] (SVGAnimatedString classAttribute) [] None None None
             (Some parent).
Arguments svgElementOf tag%_string.

(** [<button id="submit-btn" class="btn">Submit</button>] *)
Definition submitButton : Element.t :=
  Element.mk (js "BUTTON") (js "button") (js "submit-btn") (ClassString (js "btn"))
             (js "Submit") (Some (js "submit")) None None (Some bodyElement).

(** [<div class="card">], holding [<svg class="logo"><path/></svg>] *)
Definition cardDiv : Element.t := htmlElementOf "div" [] (js "card") [] bodyElement.
Definition logoSvg : Element.t := svgElementOf "svg" (js "logo") cardDiv.
Definition logoPath : Element.t := svgElementOf "path" [] logoSvg.

(** [<p>Thanks for reading my blog&#x1F600; Bye</p>]: the emoji is the
    surrogate pair at code units 26 and 27 of the text. *)
Definition emojiParagraph : Element.t :=
  htmlElementOf "p" [] []
    (js "Thanks for reading my blog" ++ [55357; 56832]%N ++ js " Bye") bodyElement.

(** The description of that paragraph: the cut at 27 code units keeps the
    first half of the pair. *)
Definition cutDescription : jsstring :=
  js "Thanks for reading my blog" ++ [55357%N] ++ js "...".

(** [<section id="hero">] *)
Definition heroSection : Element.t := htmlElementOf "section" (js "hero") [] [] bodyElement.

(** A clock that reads 2026-11-02T10:00:00.000Z first and one millisecond
    more at every later reading. *)
Definition sampleClock : nat -> Z := fun n => (1793613600000 + Z.of_nat n)%Z.

(** A page with the given stored items, nothing logged yet. *)
Definition worldWith (storage : gmap jsstring jsstring) (listening : bool) : World :=
  mkWorld sampleClock 0 [] [] storage [] listening [] [] [].

(** A buffer of 250 earlier records, 10750 code units. *)
Definition fullBuffer : jsstring :=
  concat (replicate 250 (js "2026-11-01T10:00:00.000Z, click, link:Home" ++ LF)).

(** The page once the buffer is past the threshold, listeners registered. *)
Definition fullWorld : World := worldWith {[ storageKey := fullBuffer ]} true.

(** [<a class="more">  Read the full story about our new office in Lisbon  </a>] *)
Definition storyLink : Element.t :=
  htmlElementOf "a" [] (js "more")
    (js "  Read the full story about our new office in Lisbon  ") bodyElement.

(** [<div class="spacer wide">], holding a line break and blanks only. *)
Definition spacerDiv : Element.t :=
  htmlElementOf "div" [] (js "spacer wide") ([10; 32; 32; 9]%N) bodyElement.

(** A page opened for the first time: nothing stored, no listener yet. *)
Definition freshWorld : World := worldWith ∅ false.

(** The page view and one click, logged on a fresh page. *)
Definition firstEvents : list Event :=
  [ (js "view", js "page", js "Home"); (js "click", js "link", js "About") ].

(** [<img alt="Portrait" src="https://example.org/img/me.jpg">] *)
Definition portrait : Element.t :=
  Element.mk (js "IMG") (js "img") [] (ClassString []) [] None (Some (js "Portrait"))
             (Some (js "https://example.org/img/me.jpg")) (Some bodyElement).

(** The record of a click on the About link. *)
Definition aboutRecord : jsstring :=
  logLine 1793613600000 (js "click") (js "link") (js "About").

(** The page opened again with the full buffer of an earlier visit, the
    listeners not yet registered. *)
Definition returningWorld : World := worldWith {[ storageKey := fullBuffer ]} false.

(** A page that keeps a theme setting next to the full buffer. *)
Definition themedWorld : World :=
  worldWith (<[js "theme" := js "dark"]> {[ storageKey := fullBuffer ]}) true.

(** The hero section comes into view, leaves and comes back. *)
Definition heroEnters : IntersectionObserverEntry := mkEntry true heroSection.
Definition heroLeaves : IntersectionObserverEntry := mkEntry false heroSection.

(** [<section id="intro">], coming into view. *)
Definition introSection : Element.t := htmlElementOf "section" (js "intro") [] [] bodyElement.
Definition introEnters : IntersectionObserverEntry := mkEntry true introSection.

(** The record of a click on [emojiParagraph]. *)
Definition poisonedRecord : jsstring :=
  logLine 1793613600000 (js "click") (js "p") cutDescription.

(** [<img src="https://example.org/img/me.jpg">], without alt text. *)
Definition barePortrait : Element.t :=
  Element.mk (js "IMG") (js "img") [] (ClassString []) [] None (Some [])
             (Some (js "https://example.org/img/me.jpg")) (Some bodyElement).

(** A link whose text runs over two lines of the HTML source. *)
Definition twoLineLink : Element.t :=
  htmlElementOf "a" [] [] (js "Read" ++ LF ++ js "      more") bodyElement.

(** The page opened again after an earlier visit left the full buffer and
    the record of a click on [emojiParagraph] behind. *)
Definition poisonedWorld : World :=
  worldWith {[ storageKey := fullBuffer ++ poisonedRecord ++ LF ]} false.

(** A home page with one section and one image. *)
Definition homePage : Document := mkDocument (js "Home") [heroSection] [portrait].

(** ** Facts about strings *)

Lemma truthy_true (s : jsstring) : truthy s = true <-> s <> [].
Proof. destruct s; simpl; split; congruence. Qed.


Lemma trimStart_all_white (s : jsstring) :
  forallb isWhiteSpace s = true -> trimStart s = [].
Proof.
  induction s as [|c s IH]; simpl; [reflexivity|].
  intros H. apply andb_true_iff in H as [Hc Hs]. rewrite Hc. auto.
Qed.

Lemma trim_all_white (s : jsstring) :
  forallb isWhiteSpace s = true -> trim s = [].
Proof.
  intros H. unfold trim, trimEnd. rewrite (trimStart_all_white s H). reflexivity.
Qed.

Lemma trim_nil : trim [] = [].
Proof. reflexivity. Qed.

Lemma jslength_gt_30 (s : jsstring) : (30 <? jslength s)%Z = true <-> 30 < length s.
Proof. unfold jslength. rewrite Z.ltb_lt. lia. Qed.

(** *** Well-formed strings and [encodeURIComponent] *)

Lemma uriUnreserved_ascii (c : code_unit) : uriUnreserved c = true -> isAscii c = true.
Proof.
  unfold uriUnreserved, isAscii. intros H.
  repeat rewrite ?orb_true_iff, ?andb_true_iff, ?N.leb_le, ?N.eqb_eq in H.
  apply N.ltb_lt. lia.
Qed.

Lemma isAscii_not_surrogate (c : code_unit) :
  isAscii c = true -> isLowSurrogate c = false /\ isHighSurrogate c = false.
Proof.
  unfold isAscii, isLowSurrogate, isHighSurrogate. intros H. apply N.ltb_lt in H.
  split; apply andb_false_iff; left; apply N.leb_gt; lia.
Qed.

(** Induction on a string, two code units at a time where a surrogate pair
    is read. *)
Lemma jsstring_pair_ind (P : jsstring -> Prop) :
  P [] ->
  (forall c, P [c]) ->
  (forall c d rest, P (d :: rest) -> P rest -> P (c :: d :: rest)) ->
  forall s, P s.
Proof.
  intros Hnil Hone Hstep s.
  assert (H : P s /\ forall c, P (c :: s)).
  { induction s as [|d rest [IH1 IH2]].
    - split; [exact Hnil | exact Hone].
    - split; [apply IH2 | intros c; apply Hstep; [apply IH2 | exact IH1]]. }
  exact (proj1 H).
Qed.

Lemma isWellFormed_cons (c : code_unit) (rest : jsstring) :
  isWellFormed (c :: rest)
  = if isLowSurrogate c then false
    else if isHighSurrogate c then
      match rest with
      | lo :: rest' => isLowSurrogate lo && isWellFormed rest'
      | [] => false
      end
    else isWellFormed rest.
Proof. reflexivity. Qed.

Lemma encodeURIComponent_cons (c : code_unit) (rest : jsstring) :
  encodeURIComponent (c :: rest)
  = if uriUnreserved c then
      cbind (encodeURIComponent rest) (fun r => Normal (c :: r))
    else if isLowSurrogate c then Throw URIError
    else if isHighSurrogate c then
      match rest with
      | lo :: rest' =>
          if isLowSurrogate lo then
            cbind (encodeURIComponent rest')
                  (fun r => Normal (escapeCodePoint (pairCodePoint c lo) ++ r))
          else Throw URIError
      | [] => Throw URIError
      end
    else cbind (encodeURIComponent rest) (fun r => Normal (escapeCodePoint c ++ r)).
Proof. reflexivity. Qed.

(** [encodeURIComponent] returns exactly on the well-formed strings, and
    URIError is all it throws. *)
Lemma encodeURIComponent_wellFormed (s : jsstring) :
  if isWellFormed s
  then exists encoded, encodeURIComponent s = Normal encoded
  else encodeURIComponent s = Throw URIError.
Proof.
  induction s as [|c|c d rest IH1 IH2] using jsstring_pair_ind.
  - simpl. eauto.
  - simpl. destruct (uriUnreserved c) eqn:Hu.
    + destruct (isAscii_not_surrogate c (uriUnreserved_ascii c Hu)) as [-> ->].
      simpl. eauto.
    + destruct (isLowSurrogate c); [reflexivity|].
      destruct (isHighSurrogate c); [reflexivity|]. simpl. eauto.
  - rewrite isWellFormed_cons, encodeURIComponent_cons.
    destruct (uriUnreserved c) eqn:Hu.
    + destruct (isAscii_not_surrogate c (uriUnreserved_ascii c Hu)) as [-> ->].
      destruct (isWellFormed (d :: rest)).
      * destruct IH1 as [encoded ->]. simpl. eauto.
      * rewrite IH1. reflexivity.
    + destruct (isLowSurrogate c); [reflexivity|].
      destruct (isHighSurrogate c).
      * destruct (isLowSurrogate d); [|reflexivity]. simpl.
        destruct (isWellFormed rest).
        -- destruct IH2 as [encoded ->]. simpl. eauto.
        -- rewrite IH2. reflexivity.
      * destruct (isWellFormed (d :: rest)).
        -- destruct IH1 as [encoded ->]. simpl. eauto.
        -- rewrite IH1. reflexivity.
Qed.

Lemma encodeURIComponent_returns (s : jsstring) :
  isWellFormed s = true -> exists encoded, encodeURIComponent s = Normal encoded.
Proof. intros H. pose proof (encodeURIComponent_wellFormed s) as E. rewrite H in E. exact E. Qed.

Lemma encodeURIComponent_throws (s : jsstring) :
  isWellFormed s = false -> encodeURIComponent s = Throw URIError.
Proof. intros H. pose proof (encodeURIComponent_wellFormed s) as E. rewrite H in E. exact E. Qed.

(** Appending well-formed strings gives a well-formed string. *)
Lemma isWellFormed_app (s1 s2 : jsstring) :
  isWellFormed s1 = true -> isWellFormed s2 = true -> isWellFormed (s1 ++ s2) = true.
Proof.
  intros H1 H2. revert H1.
  induction s1 as [|c|c d rest IH1 IH2] using jsstring_pair_ind.
  - intros _. exact H2.
  - simpl. destruct (isLowSurrogate c); [discriminate|].
    destruct (isHighSurrogate c); [discriminate|]. intros _.
    destruct s2; simpl; [reflexivity|];
      destruct (isLowSurrogate c) eqn:E1; destruct (isHighSurrogate c) eqn:E2;
      try discriminate; exact H2.
  - change ((c :: d :: rest) ++ s2) with (c :: d :: (rest ++ s2)).
    rewrite !(isWellFormed_cons c). destruct (isLowSurrogate c); [discriminate|].
    destruct (isHighSurrogate c).
    + intros H. apply andb_true_iff in H as [-> H]. simpl. exact (IH2 H).
    + exact IH1.
Qed.

Lemma isWellFormed_ascii (s : jsstring) :
  forallb isAscii s = true -> isWellFormed s = true.
Proof.
  induction s as [|c s IH]; simpl; [reflexivity|].
  intros H. apply andb_true_iff in H as [Hc Hs].
  destruct (isAscii_not_surrogate c Hc) as [-> ->]. exact (IH Hs).
Qed.

(** *** Decoding what [encodeURIComponent] wrote *)

Lemma hexValue_hexDigit (n : N) : (n < 16)%N -> hexValue (hexDigit n) = Some n.
Proof.
  intros Hn. unfold hexDigit, hexValue.
  destruct (N.ltb_spec n 10).
  - replace ((48 <=? 48 + n) && (48 + n <=? 57))%N with true
      by (symmetry; apply andb_true_iff; split; apply N.leb_le; lia).
    f_equal. lia.
  - replace ((48 <=? 55 + n) && (55 + n <=? 57))%N with false
      by (symmetry; apply andb_false_iff; right; apply N.leb_gt; lia).
    replace ((65 <=? 55 + n) && (55 + n <=? 70))%N with true
      by (symmetry; apply andb_true_iff; split; apply N.leb_le; lia).
    f_equal. lia.
Qed.

Lemma percentDecode_percentEscape (octet : N) (rest : jsstring) :
  (octet < 256)%N ->
  percentDecode (percentEscape octet ++ rest) = octet :: percentDecode rest.
Proof.
  intros Hoctet. unfold percentEscape. cbn [app percentDecode N.eqb Pos.eqb].
  rewrite !hexValue_hexDigit.
  - f_equal. symmetry. apply N.div_mod. discriminate.
  - apply N.mod_lt. discriminate.
  - apply N.Div0.div_lt_upper_bound. exact Hoctet.
Qed.

Lemma percentDecode_octets (octets : list N) (rest : jsstring) :
  Forall (fun octet => (octet < 256)%N) octets ->
  percentDecode (concat (map percentEscape octets) ++ rest) = octets ++ percentDecode rest.
Proof.
  induction 1 as [|octet octets Hoctet _ IH]; [reflexivity|].
  cbn [map concat]. rewrite <- !app_assoc, percentDecode_percentEscape by exact Hoctet.
  rewrite IH. reflexivity.
Qed.

Lemma utf8Encode_octets (cp : N) :
  (cp < 1114112)%N -> Forall (fun octet => (octet < 256)%N) (utf8Encode cp).
Proof.
  intros Hcp. unfold utf8Encode.
  repeat match goal with
         | |- context [(?a <? ?b)%N] => destruct (N.ltb_spec a b)
         end;
    repeat constructor;
    repeat match goal with
           | |- context [(?a mod 64)%N] =>
               let H := fresh in pose proof (N.mod_lt a 64 ltac:(discriminate)) as H;
               generalize dependent (a mod 64)%N; intros
           end;
    try lia.
  - assert (cp / 64 < 32)%N by (apply N.Div0.div_lt_upper_bound; lia). lia.
  - assert (cp / 4096 < 16)%N by (apply N.Div0.div_lt_upper_bound; lia). lia.
  - assert (cp / 262144 < 16)%N by (apply N.Div0.div_lt_upper_bound; lia). lia.
Qed.

Lemma percentDecode_escapeCodePoint (cp : N) (rest : jsstring) :
  (cp < 1114112)%N ->
  percentDecode (escapeCodePoint cp ++ rest) = utf8Encode cp ++ percentDecode rest.
Proof. intros Hcp. apply percentDecode_octets, utf8Encode_octets, Hcp. Qed.

Lemma percentDecode_unreserved (c : code_unit) (rest : jsstring) :
  uriUnreserved c = true ->
  percentDecode (c :: rest) = utf8Encode c ++ percentDecode rest.
Proof.
  intros Hc. pose proof (uriUnreserved_ascii c Hc) as Hascii.
  unfold isAscii in Hascii. unfold utf8Encode. rewrite Hascii.
  cbn [percentDecode]. destruct (N.eqb_spec c 37) as [->|_]; [discriminate|reflexivity].
Qed.

Lemma pairCodePoint_bound (hi lo : code_unit) :
  isHighSurrogate hi = true -> isLowSurrogate lo = true ->
  (pairCodePoint hi lo < 1114112)%N.
Proof.
  unfold isHighSurrogate, isLowSurrogate, pairCodePoint. intros Hhi Hlo.
  apply andb_true_iff in Hhi as [Hhi1 Hhi2]. apply andb_true_iff in Hlo as [Hlo1 Hlo2].
  apply N.leb_le in Hhi1, Hhi2, Hlo1, Hlo2. lia.
Qed.

Lemma utf8_cons (c : code_unit) (rest : jsstring) :
  utf8 (c :: rest)
  = if isLowSurrogate c then utf8Encode 65533 ++ utf8 rest
    else if isHighSurrogate c then
      match rest with
      | lo :: rest' =>
          if isLowSurrogate lo then utf8Encode (pairCodePoint c lo) ++ utf8 rest'
          else utf8Encode 65533 ++ utf8 rest
      | [] => utf8Encode 65533
      end
    else utf8Encode c ++ utf8 rest.
Proof. reflexivity. Qed.

(** Decoding the percent escapes of an encoded string gives the UTF-8
    octets of the string. *)
Lemma percentDecode_encodeURIComponent (s encoded : jsstring) :
  isString s = true ->
  encodeURIComponent s = Normal encoded ->
  percentDecode encoded = utf8 s.
Proof.
  revert encoded.
  induction s as [|c|c d rest IH1 IH2] using jsstring_pair_ind; intros encoded Hs.
  - intros [= <-]. reflexivity.
  - apply andb_true_iff in Hs as [Hc _]. apply N.ltb_lt in Hc.
    rewrite encodeURIComponent_cons, utf8_cons.
    destruct (uriUnreserved c) eqn:Hu.
    + destruct (isAscii_not_surrogate c (uriUnreserved_ascii c Hu)) as [-> ->].
      intros [= <-]. rewrite (percentDecode_unreserved c [] Hu). reflexivity.
    + destruct (isLowSurrogate c); [discriminate|].
      destruct (isHighSurrogate c); [discriminate|].
      intros [= <-]. rewrite percentDecode_escapeCodePoint by lia. reflexivity.
  - pose proof Hs as Hs'. apply andb_true_iff in Hs' as [Hc Hrest]. apply N.ltb_lt in Hc.
    pose proof Hrest as Hrest'. apply andb_true_iff in Hrest' as [_ Hrest'].
    rewrite encodeURIComponent_cons, utf8_cons.
    destruct (uriUnreserved c) eqn:Hu.
    + destruct (isAscii_not_surrogate c (uriUnreserved_ascii c Hu)) as [-> ->].
      destruct (encodeURIComponent (d :: rest)) as [r|] eqn:Hr; [|discriminate].
      intros [= <-]. rewrite (percentDecode_unreserved c r Hu), (IH1 r Hrest eq_refl).
      reflexivity.
    + destruct (isLowSurrogate c); [discriminate|].
      destruct (isHighSurrogate c) eqn:Hhi.
      * destruct (isLowSurrogate d) eqn:Hlo; [|discriminate].
        destruct (encodeURIComponent rest) as [r|] eqn:Hr; [|discriminate].
        intros [= <-].
        rewrite percentDecode_escapeCodePoint, (IH2 r Hrest' eq_refl)
          by (apply pairCodePoint_bound; assumption).
        reflexivity.
      * destruct (encodeURIComponent (d :: rest)) as [r|] eqn:Hr; [|discriminate].
        intros [= <-].
        rewrite percentDecode_escapeCodePoint, (IH1 r Hrest eq_refl) by lia.
        reflexivity.
Qed.

(** *** Time stamps *)

Lemma digit_ascii (n : Z) : isAscii (digit n) = true.
Proof.
  unfold isAscii, digit. apply N.ltb_lt.
  pose proof (Z.mod_pos_bound n 10 eq_refl). lia.
Qed.

Lemma forallb_isAscii_digits (ns : list Z) : forallb isAscii (map digit ns) = true.
Proof. induction ns as [|n ns IH]; simpl; [reflexivity|]. rewrite digit_ascii. exact IH. Qed.

Lemma isoYear_ascii (y : Z) : forallb isAscii (isoYear y) = true.
Proof.
  unfold isoYear.
  destruct ((0 <=? y)%Z && (y <=? 9999)%Z); [|destruct (y <? 0)%Z].
  - exact (forallb_isAscii_digits [y / 1000; y / 100; y / 10; y]%Z).
  - exact (forallb_isAscii_digits
             [- y / 100000; - y / 10000; - y / 1000; - y / 100; - y / 10; - y]%Z).
  - exact (forallb_isAscii_digits [y / 100000; y / 10000; y / 1000; y / 100; y / 10; y]%Z).
Qed.

Lemma toISOString_ascii (t : Z) : forallb isAscii (toISOString t) = true.
Proof.
  unfold toISOString, isoDate, isoTime.
  destruct (civilFromDays (t / msPerDay)) as [[y m] d].
  rewrite !forallb_app, isoYear_ascii.
  unfold pad2, pad3. cbn [forallb]. rewrite !digit_ascii. reflexivity.
Qed.

(** For a year of four digits the first ten code units of the time stamp
    are the date, [YYYY-MM-DD]. *)
Lemma slice_toISOString (t : Z) :
  (let '(y, _, _) := civilFromDays (t / msPerDay) in 0 <= y <= 9999)%Z ->
  slice0 10 (toISOString t) = isoDate t /\ length (isoDate t) = 10.
Proof.
  unfold toISOString, isoDate, isoYear.
  destruct (civilFromDays (t / msPerDay)) as [[y m] d]. intros Hy.
  replace ((0 <=? y)%Z && (y <=? 9999)%Z) with true
    by (symmetry; apply andb_true_iff; split; apply Z.leb_le; lia).
  split; reflexivity.
Qed.

Lemma logLine_wellFormed (t : Z) (eventType objectType objectDescription : jsstring) :
  isWellFormed eventType = true ->
  isWellFormed objectType = true ->
  isWellFormed objectDescription = true ->
  isWellFormed (logLine t eventType objectType objectDescription) = true.
Proof.
  intros Hkind Htype Hdescription. unfold logLine.
  apply isWellFormed_app; [apply isWellFormed_ascii, toISOString_ascii|].
  apply isWellFormed_app; [reflexivity|].
  apply isWellFormed_app; [exact Hkind|].
  apply isWellFormed_app; [reflexivity|].
  apply isWellFormed_app; [exact Htype|].
  apply isWellFormed_app; [reflexivity | exact Hdescription].
Qed.

(** ** The describer *)

(** C4. An element whose id is a non-empty string is described by ['#']
    followed by the id, whatever its text, classes, tag, alt and src are. *)
Theorem getElementDescription_id (element : Element.t) :
  Element.id element <> [] ->
  getElementDescription element = Normal (js "#" ++ Element.id element).
Proof.
  intros Hid. unfold getElementDescription.
  apply truthy_true in Hid. rewrite Hid. reflexivity.
Qed.

(** The text rule of lines 100-106. *)
Lemma text_rule (element : Element.t) :
  Element.id element = [] ->
  trim (Element.textContent element) <> [] ->
  getElementDescription element
  = Normal (if decide (30 < length (trim (Element.textContent element)))
            then take 27 (trim (Element.textContent element)) ++ js "..."
            else trim (Element.textContent element)).
Proof.
  intros Hid Htext. unfold getElementDescription. rewrite Hid. simpl.
  assert (Hraw : truthy (Element.textContent element) = true).
  { apply truthy_true. intros E. rewrite E in Htext. exact (Htext trim_nil). }
  apply truthy_true in Htext. rewrite Hraw, Htext. simpl.
  destruct (decide (30 < length (trim (Element.textContent element)))) as [Hlong|Hshort].
  - apply jslength_gt_30 in Hlong. rewrite Hlong. reflexivity.
  - destruct (30 <? jslength (trim (Element.textContent element)))%Z eqn:E; [|reflexivity].
    apply jslength_gt_30 in E. contradiction.
Qed.

(** C5. With an empty id and a trimmed text that is not empty, the
    description is the trimmed text, cut to its first 27 code units followed
    by ['...'] when it is longer than 30. *)
Theorem getElementDescription_text (element : Element.t) :
  Element.id element = [] ->
  trim (Element.textContent element) <> [] ->
  getElementDescription element
  = Normal (if decide (30 < length (trim (Element.textContent element)))
            then take 27 (trim (Element.textContent element)) ++ js "..."
            else trim (Element.textContent element)).
Proof. exact (text_rule element). Qed.

(** ** The classifier *)

Lemma is_Some_None_false {A} : bool_decide (is_Some (@None A)) = false.
Proof. reflexivity. Qed.

(** An anchor is a link and a button is a button, whatever their classes
    and ancestors are. *)
Lemma determineElementType_link_button (element : Element.t) :
  (toLowerCase (Element.tagName element) = js "a" ->
   determineElementType element = Normal (js "link"))
  /\ (toLowerCase (Element.tagName element) = js "button" ->
      determineElementType element = Normal (js "button")).
Proof.
  unfold determineElementType.
  split; intros ->; reflexivity.
Qed.

Lemma rules_refinement (element : Element.t) (className : jsstring) :
  Element.className element = ClassString className ->
  determineElementType element = Normal (classifyByRules element).
Proof.
  intros Hclass.
  unfold determineElementType, classifyByRules, classifierRules, firstMatch,
    tagRule, inputRule, insideRule, headingRule, classRule, tagIs, classNames.
  rewrite Hclass.
  repeat (destruct (bool_decide (toLowerCase (Element.tagName element) = _));
          [first [reflexivity | destruct (Element.type element) as [[|c type]|]; reflexivity]|]).
  destruct (closest (js "nav") element) eqn:Hnav; [reflexivity|].
  rewrite is_Some_None_false.
  destruct (bool_decide (toLowerCase (Element.tagName element) = _)); [reflexivity|].
  destruct (array_includes _ _); [reflexivity|].
  destruct (closest (js "form") element) eqn:Hform; [reflexivity|].
  rewrite is_Some_None_false.
  destruct className as [|c className]; [reflexivity|].
  change (truthy (c :: className)) with true. cbv iota.
  repeat (destruct (includes _ _); [reflexivity|]). reflexivity.
Qed.

(** On an element whose [className] is a string, the classifier returns
    what the rules give, first match first. *)
Theorem determineElementType_rules (element : Element.t) (className : jsstring) :
  Element.className element = ClassString className ->
  determineElementType element = Normal (classifyByRules element).
Proof. exact (rules_refinement element className). Qed.

(** The classifier throws on no other element than one whose [className]
    is not a string and which the class-name rules are asked about. *)
Lemma determineElementType_throws (element : Element.t) (e : Exn) :
  determineElementType element = Throw e ->
  e = TypeError /\ exists baseVal, Element.className element = SVGAnimatedString baseVal.
Proof.
  destruct (Element.className element) as [className|baseVal] eqn:Hclass.
  - rewrite (rules_refinement element className Hclass). discriminate.
  - intros H. split; [|eauto].
    revert H. unfold determineElementType. rewrite Hclass.
    repeat match goal with
           | |- context [if bool_decide ?P then _ else _] => destruct (bool_decide P)
           | |- context [if truthy_opt ?x then _ else _] => destruct (truthy_opt x)
           | |- context [if array_includes ?l ?x then _ else _] =>
               destruct (array_includes l x)
           end; congruence.
Qed.

(** C2, at an element the claim names. An [<svg>] element outside any nav
    and form, as an inline logo is: its [className] is an
    [SVGAnimatedString], and the classifier throws TypeError where the
    claim has it return a category. *)
Theorem determineElementType_svg_throws :
  determineElementType logoSvg = Throw TypeError
  /\ getElementDescription logoSvg = Normal (js "svg").
Proof. split; vm_compute; reflexivity. Qed.

(** C6, at such an element. For the [<path>] of the logo the rules give the
    lower-case tag name, and the classifier throws TypeError. *)
Theorem determineElementType_svg_against_rules :
  classifyByRules logoPath = js "path"
  /\ determineElementType logoPath = Throw TypeError.
Proof. split; vm_compute; reflexivity. Qed.

(** ** Logging, persistence and export, one call at a time *)

Ltac run_primitives :=
  cbv beta iota zeta delta [bind ret lift throw getItem setItem sendBeacon console_log
                            newDateISO startDownload call click].

Lemma logEvent_step (stack : nat) (eventType objectType objectDescription : jsstring)
      (w : World) :
  logEvent (S stack) eventType objectType objectDescription w
  = saveEventToFile stack
      (logLine (clock w (clockReads w)) eventType objectType objectDescription)
      (withConsole (logLine (clock w (clockReads w)) eventType objectType objectDescription)
                   (tick w)).
Proof. unfold logLine. cbn [logEvent]. run_primitives. reflexivity. Qed.

Lemma saveEventToFile_step (stack : nat) (eventData : jsstring) (w : World) :
  saveEventToFile (S stack) eventData w
  = if (10000 <? jslength (buffer w))%Z
    then downloadTrackingData stack (appended eventData w)
    else (Normal tt, appended eventData w).
Proof.
  unfold appended, buffer. cbn [saveEventToFile]. run_primitives.
  destruct (10000 <? _)%Z; reflexivity.
Qed.

Lemma runListener_normal (listener : JS unit) (w : World) :
  runListener listener w = (Normal tt, afterListener listener w).
Proof.
  unfold runListener, afterListener. destruct (listener w) as [[[]|e] w']; reflexivity.
Qed.

Lemma downloadTrackingData_step (stack : nat) (w : World) :
  downloadTrackingData (S stack) w
  = match encodeURIComponent (buffer w) with
    | Throw e => (Throw e, w)
    | Normal encoded =>
        (Normal tt,
         withItem storageKey []
           (withDownload (exportLink (clock w (clockReads w)) encoded)
              (if clickListener w
               then afterListener (onDocumentClick stack downloadLink) (tick w)
               else tick w)))
    end.
Proof.
  unfold buffer, exportLink. cbn [downloadTrackingData]. run_primitives.
  destruct (encodeURIComponent _) as [encoded|e]; [|reflexivity].
  change (clickListener (tick w)) with (clickListener w).
  destruct (clickListener w); [|reflexivity].
  rewrite runListener_normal. reflexivity.
Qed.

Lemma determineElementType_downloadLink :
  determineElementType downloadLink = Normal (js "link").
Proof. vm_compute. reflexivity. Qed.

Lemma getElementDescription_downloadLink :
  getElementDescription downloadLink = Normal (js "a").
Proof. vm_compute. reflexivity. Qed.

Lemma onDocumentClick_link (stack : nat) (w : World) :
  onDocumentClick (S stack) downloadLink w
  = logEvent stack (js "click") (js "link") (js "a") w.
Proof.
  cbn [onDocumentClick]. unfold bind, lift.
  rewrite determineElementType_downloadLink, getElementDescription_downloadLink.
  reflexivity.
Qed.

(** ** What a nested run leaves alone *)

Lemma quiet_refl (w : World) : quiet w w.
Proof.
  split; try reflexivity.
  - exists []. rewrite app_nil_r. split; [reflexivity | constructor].
  - exists []. rewrite app_nil_r. reflexivity.
  - exists []. rewrite app_nil_r. reflexivity.
Qed.

Lemma quiet_trans (w1 w2 w3 : World) : quiet w1 w2 -> quiet w2 w3 -> quiet w1 w3.
Proof.
  intros [Hc1 Hl1 [l1 [Hk1 Hf1]] [b1 Hb1] [d1 Hd1] Hs1]
         [Hc2 Hl2 [l2 [Hk2 Hf2]] [b2 Hb2] [d2 Hd2] Hs2].
  split.
  - congruence.
  - congruence.
  - exists (l1 ++ l2). rewrite Hk2, Hk1, app_assoc. split; [reflexivity|].
    apply Forall_app; split; assumption.
  - exists (b1 ++ b2). rewrite Hb2, Hb1, app_assoc. reflexivity.
  - exists (d1 ++ d2). rewrite Hd2, Hd1, app_assoc. reflexivity.
  - intros key Hkey. rewrite Hs2, Hs1 by assumption. reflexivity.
Qed.

Lemma quiet_tick (w : World) : quiet w (tick w).
Proof. destruct (quiet_refl w) as [Hc Hl Hk Hb Hd Hs]. split; assumption. Qed.

Lemma quiet_withBeacon (url : jsstring) (blob : Blob) (w : World) :
  quiet w (withBeacon url blob w).
Proof.
  destruct (quiet_refl w) as [Hc Hl Hk _ Hd Hs].
  split; try assumption. exists [(url, blob)]. reflexivity.
Qed.

Lemma quiet_withReport (e : Exn) (w : World) : quiet w (withReport e w).
Proof. destruct (quiet_refl w) as [Hc Hl Hk Hb Hd Hs]. split; assumption. Qed.

Lemma quiet_withItem (value : jsstring) (w : World) :
  quiet w (withItem storageKey value w).
Proof.
  destruct (quiet_refl w) as [Hc Hl Hk Hb Hd _].
  split; try assumption.
  intros key Hkey. simpl. apply lookup_insert_ne. congruence.
Qed.

Lemma quiet_withDownload (d : Download) (w : World) : quiet w (withDownload d w).
Proof.
  destruct (quiet_refl w) as [Hc Hl Hk Hb _ Hs].
  split; try assumption. exists [d]. reflexivity.
Qed.

Lemma quiet_withConsole (line : jsstring) (w : World) :
  isLinkClick line -> quiet w (withConsole line w).
Proof.
  intros Hline. destruct (quiet_refl w) as [Hc Hl _ Hb Hd Hs].
  split; try assumption. exists [line]. split; [reflexivity|].
  constructor; [assumption | constructor].
Qed.

Lemma quiet_appended (eventData : jsstring) (w : World) : quiet w (appended eventData w).
Proof.
  unfold appended. eapply quiet_trans; [apply quiet_withBeacon | apply quiet_withItem].
Qed.

Lemma quiet_afterListener (listener : JS unit) (w : World) :
  quiet w (snd (listener w)) -> quiet w (afterListener listener w).
Proof.
  unfold afterListener. destruct (listener w) as [[[]|e] w']; simpl; intros H.
  - exact H.
  - eapply quiet_trans; [exact H | apply quiet_withReport].
Qed.

(** Whatever the stack allows, a call of [saveEventToFile], of
    [downloadTrackingData], or of the click listener and [logEvent] for an
    export link is quiet. *)
Lemma nested_quiet (stack : nat) :
  (forall eventData w, quiet w (snd (saveEventToFile stack eventData w)))
  /\ (forall w, quiet w (snd (downloadTrackingData stack w)))
  /\ (forall w, quiet w (snd (logEvent stack (js "click") (js "link") (js "a") w)))
  /\ (forall w, quiet w (snd (onDocumentClick stack downloadLink w))).
Proof.
  induction stack as [|stack (IHsave & IHdownload & IHlog & IHclick)].
  - repeat split; intros; apply quiet_refl.
  - repeat apply conj.
    + intros eventData w. rewrite saveEventToFile_step.
      destruct (10000 <? _)%Z; simpl.
      * eapply quiet_trans; [apply quiet_appended | apply IHdownload].
      * apply quiet_appended.
    + intros w. rewrite downloadTrackingData_step.
      destruct (encodeURIComponent (buffer w)) as [encoded|e]; simpl; [|apply quiet_refl].
      eapply quiet_trans; [|apply quiet_withItem].
      eapply quiet_trans; [|apply quiet_withDownload].
      destruct (clickListener w); [|apply quiet_tick].
      eapply quiet_trans; [apply quiet_tick|].
      apply quiet_afterListener, IHclick.
    + intros w. rewrite logEvent_step.
      eapply quiet_trans; [|apply IHsave].
      eapply quiet_trans; [apply quiet_tick|].
      apply quiet_withConsole. eexists. reflexivity.
    + intros w. rewrite onDocumentClick_link. apply IHlog.
Qed.

Lemma saveEventToFile_quiet (stack : nat) (eventData : jsstring) (w : World) :
  quiet w (snd (saveEventToFile stack eventData w)).
Proof. apply nested_quiet. Qed.

Lemma downloadTrackingData_quiet (stack : nat) (w : World) :
  quiet w (snd (downloadTrackingData stack w)).
Proof. apply nested_quiet. Qed.

Lemma onDocumentClick_link_quiet (stack : nat) (w : World) :
  quiet w (snd (onDocumentClick stack downloadLink w)).
Proof. apply nested_quiet. Qed.

(** ** Persistence and export *)

Lemma buffer_withItem (value : jsstring) (w : World) :
  buffer (withItem storageKey value w) = value.
Proof. unfold buffer. simpl. rewrite lookup_insert_eq. reflexivity. Qed.

Lemma buffer_appended (eventData : jsstring) (w : World) :
  buffer (appended eventData w) = buffer w ++ eventData ++ LF.
Proof. apply buffer_withItem. Qed.

(** Below the threshold the record is appended and nothing else happens. *)
Lemma saveEventToFile_appends (stack : nat) (eventData : jsstring) (w : World) :
  (jslength (buffer w) <= 10000)%Z ->
  saveEventToFile (S stack) eventData w = (Normal tt, appended eventData w).
Proof.
  intros Hlen. rewrite saveEventToFile_step.
  destruct (10000 <? jslength (buffer w))%Z eqn:E; [|reflexivity].
  apply Z.ltb_lt in E. lia.
Qed.

(** An export of a well-formed buffer: the listener's nested run, then the
    download of the buffer as it was read, then the reset. *)
Lemma downloadTrackingData_exports (stack : nat) (w : World) :
  isWellFormed (buffer w) = true ->
  exists encoded nested w',
    downloadTrackingData (S stack) w = (Normal tt, w')
    /\ encodeURIComponent (buffer w) = Normal encoded
    /\ downloads w' = downloads w ++ nested ++ [exportLink (clock w (clockReads w)) encoded]
    /\ buffer w' = [].
Proof.
  intros Hwf. destruct (encodeURIComponent_returns _ Hwf) as [encoded Henc].
  rewrite downloadTrackingData_step, Henc.
  set (w1 := if clickListener w
             then afterListener (onDocumentClick stack downloadLink) (tick w)
             else tick w).
  assert (Hq : quiet w w1).
  { subst w1. destruct (clickListener w); [|apply quiet_tick].
    eapply quiet_trans; [apply quiet_tick|].
    apply quiet_afterListener, onDocumentClick_link_quiet. }
  destruct (quiet_downloads _ _ Hq) as [nested Hnested].
  exists encoded, nested. eexists. split; [reflexivity|]. split; [reflexivity|]. split.
  - simpl. rewrite Hnested, app_assoc. reflexivity.
  - apply buffer_withItem.
Qed.

(** An export of a buffer with a lone surrogate: [encodeURIComponent]
    throws, nothing is downloaded and the buffer stays as it is. *)
Lemma downloadTrackingData_throws (stack : nat) (w : World) :
  isWellFormed (buffer w) = false ->
  downloadTrackingData (S stack) w = (Throw URIError, w).
Proof.
  intros Hwf. rewrite downloadTrackingData_step, (encodeURIComponent_throws _ Hwf).
  reflexivity.
Qed.

Lemma saveEventToFile_returns (stack : nat) (eventData : jsstring) (w : World) :
  isWellFormed (buffer w ++ eventData ++ LF) = true ->
  exists w', saveEventToFile (S (S stack)) eventData w = (Normal tt, w').
Proof.
  intros Hwf. rewrite saveEventToFile_step.
  destruct (10000 <? jslength (buffer w))%Z; [|eauto].
  rewrite <- buffer_appended in Hwf.
  destruct (downloadTrackingData_exports stack _ Hwf) as (_ & _ & w' & Hrun & _). eauto.
Qed.

(** What [saveEventToFile] does with a record when buffer and record are
    well formed: past the threshold (the length read before the append) it
    exports the buffer with the record in it and leaves the buffer empty;
    otherwise it appends the record and exports nothing. *)
Theorem saveEventToFile_threshold (stack : nat) (eventData : jsstring) (w : World) :
  isWellFormed (buffer w ++ eventData ++ LF) = true ->
  exists w',
    saveEventToFile (S (S stack)) eventData w = (Normal tt, w')
    /\ if decide (10000 < jslength (buffer w))%Z
       then buffer w' = []
            /\ exists encoded nested,
                 encodeURIComponent (buffer w ++ eventData ++ LF) = Normal encoded
                 /\ downloads w'
                    = downloads w ++ nested ++ [exportLink (clock w (clockReads w)) encoded]
       else buffer w' = buffer w ++ eventData ++ LF
            /\ downloads w' = downloads w.
Proof.
  intros Hwf. destruct (decide (10000 < jslength (buffer w))%Z) as [Hlong|Hshort].
  - rewrite saveEventToFile_step.
    apply Z.ltb_lt in Hlong. rewrite Hlong.
    rewrite <- buffer_appended in Hwf.
    destruct (downloadTrackingData_exports stack _ Hwf)
      as (encoded & nested & w' & Hrun & Henc & Hd & Hb).
    exists w'. split; [exact Hrun|]. split; [exact Hb|].
    exists encoded, nested. rewrite <- buffer_appended. split; [exact Henc | exact Hd].
  - exists (appended eventData w). split.
    + apply saveEventToFile_appends. lia.
    + split; [apply buffer_appended | reflexivity].
Qed.

(** Past the threshold, a lone surrogate in the buffer or in the record
    makes the export throw: the record stays appended, the buffer is not
    reset and nothing is downloaded. *)
Lemma saveEventToFile_throws (stack : nat) (eventData : jsstring) (w : World) :
  (10000 < jslength (buffer w))%Z ->
  isWellFormed (buffer w ++ eventData ++ LF) = false ->
  saveEventToFile (S (S stack)) eventData w = (Throw URIError, appended eventData w).
Proof.
  intros Hlong Hwf. rewrite saveEventToFile_step.
  apply Z.ltb_lt in Hlong. rewrite Hlong.
  apply downloadTrackingData_throws. rewrite buffer_appended. exact Hwf.
Qed.

Lemma fullBuffer_length : jslength (buffer fullWorld) = 10750%Z.
Proof. vm_compute. reflexivity. Qed.

Lemma getElementDescription_emojiParagraph :
  determineElementType emojiParagraph = Normal (js "p")
  /\ getElementDescription emojiParagraph = Normal cutDescription.
Proof. split; vm_compute; reflexivity. Qed.

(** C1, at a record the describer produces. The buffer holds 10750 code
    units and the record is the click on [emojiParagraph], whose description
    ends in half a surrogate pair: [saveEventToFile] throws URIError, the
    buffer keeps the old records and the new one, and nothing is downloaded,
    where the claim has an export and an empty buffer. *)
Theorem saveEventToFile_lone_surrogate (stack : nat) :
  saveEventToFile (S (S stack)) poisonedRecord fullWorld
  = (Throw URIError, appended poisonedRecord fullWorld)
  /\ buffer (appended poisonedRecord fullWorld) = fullBuffer ++ poisonedRecord ++ LF
  /\ downloads (appended poisonedRecord fullWorld) = [].
Proof.
  split; [|split].
  - apply saveEventToFile_throws.
    + rewrite fullBuffer_length. lia.
    + vm_compute. reflexivity.
  - rewrite buffer_appended. reflexivity.
  - reflexivity.
Qed.

(** The lone surrogate stays in the buffer: the next record, well formed
    as it is, meets the same URIError, and the buffer grows on. *)
Example poisoned_buffer_stays (stack : nat) :
  saveEventToFile (S (S stack)) aboutRecord (appended poisonedRecord fullWorld)
  = (Throw URIError, appended aboutRecord (appended poisonedRecord fullWorld)).
Proof.
  apply saveEventToFile_throws; vm_compute; reflexivity.
Qed.

(** C7, at the buffer that record leaves. The export is triggered and
    throws URIError before the link is built: no file is downloaded and the
    world is as it was. *)
Theorem downloadTrackingData_lone_surrogate (stack : nat) :
  downloadTrackingData (S stack) (appended poisonedRecord fullWorld)
  = (Throw URIError, appended poisonedRecord fullWorld).
Proof. apply downloadTrackingData_throws. vm_compute. reflexivity. Qed.

(** ** The logger *)

(** The line is written to the console before anything can fail; the only
    lines after it are those of clicks on export links. *)
Lemma logEvent_console (stack : nat) (eventType objectType objectDescription : jsstring)
      (w : World) :
  exists nested,
    console (snd (logEvent (S stack) eventType objectType objectDescription w))
    = console w
        ++ logLine (clock w (clockReads w)) eventType objectType objectDescription :: nested
    /\ Forall isLinkClick nested.
Proof.
  rewrite logEvent_step.
  destruct (quiet_console _ _ (saveEventToFile_quiet stack
              (logLine (clock w (clockReads w)) eventType objectType objectDescription)
              (withConsole (logLine (clock w (clockReads w)) eventType objectType
                                    objectDescription) (tick w))))
    as [nested [Hconsole Hnested]].
  exists nested. split; [|exact Hnested].
  rewrite Hconsole. simpl. rewrite <- app_assoc. reflexivity.
Qed.

Lemma logEvent_lone_surrogate_run (stack : nat) :
  logEvent (S (S (S stack))) (js "click") (js "p") cutDescription fullWorld
  = (Throw URIError,
     appended poisonedRecord (withConsole poisonedRecord (tick fullWorld))).
Proof.
  rewrite logEvent_step.
  change (logLine (clock fullWorld (clockReads fullWorld)) (js "click") (js "p") cutDescription)
    with poisonedRecord.
  apply saveEventToFile_throws.
  - change (buffer (withConsole poisonedRecord (tick fullWorld))) with (buffer fullWorld).
    rewrite fullBuffer_length. lia.
  - vm_compute. reflexivity.
Qed.

(** C9, at the click on [emojiParagraph] once the buffer is past the
    threshold. [logEvent] writes the line to the console, appends it to the
    buffer and then throws URIError out of the export, where the claim has
    no failure path; so does the click listener that called it. *)
Theorem logEvent_lone_surrogate (stack : nat) :
  logEvent (S (S (S stack))) (js "click") (js "p") cutDescription fullWorld
  = (Throw URIError,
     appended poisonedRecord (withConsole poisonedRecord (tick fullWorld)))
  /\ onDocumentClick (S (S (S (S stack)))) emojiParagraph fullWorld
     = (Throw URIError,
        appended poisonedRecord (withConsole poisonedRecord (tick fullWorld))).
Proof.
  split; [apply logEvent_lone_surrogate_run|].
  cbn [onDocumentClick]. unfold bind, lift.
  destruct getElementDescription_emojiParagraph as [-> ->].
  apply logEvent_lone_surrogate_run.
Qed.

(** ** The buffer between exports *)

Lemma app_eq_self {A} (l extra : list A) : l ++ extra = l -> extra = [].
Proof. intros H. apply (app_inv_head l). rewrite app_nil_r. exact H. Qed.

Lemma afterListener_fields (listener : JS unit) (w : World) :
  buffer (afterListener listener w) = buffer (snd (listener w))
  /\ downloads (afterListener listener w) = downloads (snd (listener w))
  /\ clock (afterListener listener w) = clock (snd (listener w))
  /\ clockReads (afterListener listener w) = clockReads (snd (listener w))
  /\ console (afterListener listener w) = console (snd (listener w)).
Proof.
  unfold afterListener. destruct (listener w) as [[[]|e] w']; repeat split.
Qed.

(** Whatever it is called with, [logEvent] only adds downloads and leaves
    the clock's future alone. *)
Lemma logEvent_downloads (stack : nat) (eventType objectType objectDescription : jsstring)
      (w : World) :
  (exists ds,
     downloads (snd (logEvent stack eventType objectType objectDescription w))
     = downloads w ++ ds)
  /\ clock (snd (logEvent stack eventType objectType objectDescription w)) = clock w.
Proof.
  destruct stack as [|stack].
  - split; [exists []; rewrite app_nil_r|]; reflexivity.
  - rewrite logEvent_step.
    pose proof (saveEventToFile_quiet stack
                  (logLine (clock w (clockReads w)) eventType objectType objectDescription)
                  (withConsole (logLine (clock w (clockReads w)) eventType objectType
                                        objectDescription) (tick w))) as Hq.
    split; [exact (quiet_downloads _ _ Hq) | exact (quiet_clock _ _ Hq)].
Qed.

(** One logged event: unless a file is downloaded, its line and a line
    feed are put at the end of the buffer, and the clock was read once. *)
Lemma logEvent_appends (stack : nat) (eventType objectType objectDescription : jsstring)
      (w : World) :
  downloads (snd (logEvent (S (S stack)) eventType objectType objectDescription w))
  = downloads w ->
  buffer (snd (logEvent (S (S stack)) eventType objectType objectDescription w))
  = buffer w ++ logLine (clock w (clockReads w)) eventType objectType objectDescription ++ LF
  /\ clockReads (snd (logEvent (S (S stack)) eventType objectType objectDescription w))
     = S (clockReads w).
Proof.
  rewrite logEvent_step.
  set (line := logLine (clock w (clockReads w)) eventType objectType objectDescription).
  set (w0 := withConsole line (tick w)).
  assert (Happended : buffer (appended line w0) = buffer w ++ line ++ LF
                      /\ clockReads (appended line w0) = S (clockReads w)).
  { split; [rewrite buffer_appended; reflexivity | reflexivity]. }
  rewrite saveEventToFile_step.
  destruct (10000 <? jslength (buffer w0))%Z; [|intros _; exact Happended].
  destruct stack as [|stack]; [intros _; exact Happended|].
  rewrite downloadTrackingData_step.
  destruct (encodeURIComponent (buffer (appended line w0))) as [encoded|e];
    [|intros _; exact Happended].
  simpl. intros Hsame. exfalso.
  set (w1 := if clickListener w
             then afterListener (onDocumentClick stack downloadLink) (tick (appended line w0))
             else tick (appended line w0)) in Hsame.
  assert (Hq : quiet (appended line w0) w1).
  { subst w1. destruct (clickListener w); [|apply quiet_tick].
    eapply quiet_trans; [apply quiet_tick|].
    apply quiet_afterListener, onDocumentClick_link_quiet. }
  destruct (quiet_downloads _ _ Hq) as [nested Hnested].
  rewrite Hnested in Hsame. change (downloads (appended line w0)) with (downloads w) in Hsame.
  rewrite <- app_assoc in Hsame. apply app_eq_self in Hsame.
  destruct nested; discriminate.
Qed.

Lemma logAll_cons (stack : nat) (eventType objectType objectDescription : jsstring)
      (rest : list Event) (w : World) :
  logAll stack ((eventType, objectType, objectDescription) :: rest) w
  = logAll stack rest
      (afterListener (logEvent stack eventType objectType objectDescription) w).
Proof.
  unfold logAll. cbn [forEach]. unfold bind. rewrite runListener_normal. reflexivity.
Qed.

Lemma logAll_app (stack : nat) (before after : list Event) (w : World) :
  snd (logAll stack (before ++ after) w)
  = snd (logAll stack after (snd (logAll stack before w))).
Proof.
  revert w. induction before as [|[[eventType objectType] objectDescription] before IH];
    intros w.
  - reflexivity.
  - rewrite <- app_comm_cons, !logAll_cons. apply IH.
Qed.

Lemma logAll_downloads (stack : nat) (events : list Event) (w : World) :
  (exists ds, downloads (snd (logAll stack events w)) = downloads w ++ ds)
  /\ clock (snd (logAll stack events w)) = clock w.
Proof.
  revert w. induction events as [|[[eventType objectType] objectDescription] events IH];
    intros w.
  - split; [exists []; rewrite app_nil_r|]; reflexivity.
  - rewrite logAll_cons.
    destruct (IH (afterListener (logEvent stack eventType objectType objectDescription) w))
      as [[ds2 Hds2] Hclock2].
    destruct (afterListener_fields (logEvent stack eventType objectType objectDescription) w)
      as (_ & Hd & Hc & _).
    destruct (logEvent_downloads stack eventType objectType objectDescription w)
      as [[ds1 Hds1] Hclock1].
    split.
    + exists (ds1 ++ ds2). rewrite Hds2, Hd, Hds1, app_assoc. reflexivity.
    + rewrite Hclock2, Hc. exact Hclock1.
Qed.

Lemma logAll_buffer (stack : nat) (events : list Event) (w : World) :
  downloads (snd (logAll (S (S stack)) events w)) = downloads w ->
  buffer (snd (logAll (S (S stack)) events w))
  = buffer w ++ asBuffer (expectedLines (clock w) (clockReads w) events).
Proof.
  revert w. induction events as [|[[eventType objectType] objectDescription] events IH];
    intros w.
  - intros _. simpl. rewrite app_nil_r. reflexivity.
  - rewrite logAll_cons.
    set (w1 := afterListener (logEvent (S (S stack)) eventType objectType objectDescription) w).
    destruct (afterListener_fields
                (logEvent (S (S stack)) eventType objectType objectDescription) w)
      as (Hb & Hd & Hc & Hr & _).
    fold w1 in Hb, Hd, Hc, Hr.
    destruct (logEvent_downloads (S (S stack)) eventType objectType objectDescription w)
      as [[ds1 Hds1] Hclock1].
    destruct (logAll_downloads (S (S stack)) events w1) as [[ds2 Hds2] _].
    intros Hsame.
    assert (Hfirst : downloads w1 = downloads w).
    { rewrite Hds2, Hd, Hds1, <- app_assoc in Hsame. apply app_eq_self in Hsame.
      apply app_eq_nil in Hsame as [-> _]. rewrite Hd, Hds1, app_nil_r. reflexivity. }
    assert (Hrest : downloads (snd (logAll (S (S stack)) events w1)) = downloads w1).
    { rewrite Hfirst. exact Hsame. }
    rewrite (IH w1 Hrest).
    rewrite Hd in Hfirst.
    destruct (logEvent_appends stack eventType objectType objectDescription w Hfirst)
      as [Hbuf Hreads].
    rewrite Hb, Hbuf, Hc, Hclock1, Hr, Hreads.
    cbn [expectedLines]. unfold asBuffer. cbn [map concat].
    rewrite <- !app_assoc. reflexivity.
Qed.

(** C8. In a run of logged events in which no file is downloaded, the
    buffer after the first [n] events is the buffer the run started from
    (empty when the key was absent) followed by the lines of those [n]
    events, each with its line feed, in the order the events were logged:
    records are only ever appended, and the buffer only grows. *)
Theorem buffer_append_only (stack : nat) (events : list Event) (w : World) (n : nat) :
  downloads (snd (logAll (S (S stack)) events w)) = downloads w ->
  buffer (snd (logAll (S (S stack)) (take n events) w))
  = buffer w ++ asBuffer (expectedLines (clock w) (clockReads w) (take n events)).
Proof.
  intros Hsame. apply logAll_buffer.
  rewrite <- (take_drop n events), logAll_app in Hsame.
  destruct (logAll_downloads (S (S stack)) (take n events) w) as [[ds1 Hds1] _].
  destruct (logAll_downloads (S (S stack)) (drop n events)
              (snd (logAll (S (S stack)) (take n events) w))) as [[ds2 Hds2] _].
  rewrite Hds2, Hds1, <- app_assoc in Hsame. apply app_eq_self in Hsame.
  apply app_eq_nil in Hsame as [-> _]. rewrite Hds1, app_nil_r. reflexivity.
Qed.

(** ** Well-formed input *)

(** On an element whose [className] is a string and whose tag name is not
    empty, the classifier returns a category that is not empty. *)
Lemma determineElementType_total (element : Element.t) (className : jsstring) :
  Element.className element = ClassString className ->
  toLowerCase (Element.tagName element) <> [] ->
  exists category, determineElementType element = Normal category /\ category <> [].
Proof.
  intros Hclass Htag. rewrite (rules_refinement element className Hclass).
  eexists. split; [reflexivity|].
  unfold classifyByRules, classifierRules, firstMatch, tagRule, inputRule, insideRule,
    headingRule, classRule.
  repeat match goal with
         | |- context [if ?b then _ else _] => destruct b
         | |- context [match Element.type element with _ => _ end] =>
             destruct (Element.type element) as [[|? ?]|]
         | |- context [match closest ?n element with _ => _ end] =>
             destruct (closest n element)
         end; first [discriminate | exact Htag].
Qed.

(** With a well-formed buffer and well-formed arguments [logEvent]
    returns: it has written its line to the console, queued that line for
    the endpoint and handed it to [saveEventToFile]. *)
Lemma logEvent_returns (stack : nat) (eventType objectType objectDescription : jsstring)
      (w : World) :
  isWellFormed (buffer w) = true ->
  isWellFormed eventType = true ->
  isWellFormed objectType = true ->
  isWellFormed objectDescription = true ->
  let line := logLine (clock w (clockReads w)) eventType objectType objectDescription in
  exists w' nested later,
    logEvent (S (S (S stack))) eventType objectType objectDescription w = (Normal tt, w')
    /\ saveEventToFile (S (S stack)) line (withConsole line (tick w)) = (Normal tt, w')
    /\ console w' = console w ++ line :: nested
    /\ Forall isLinkClick nested
    /\ beacons w'
       = beacons w ++ (js "/tracking-endpoint", mkBlob (line ++ LF) (js "text/plain")) :: later.
Proof.
  intros Hbuffer Hkind Htype Hdescription line.
  assert (Hline : isWellFormed (buffer (withConsole line (tick w)) ++ line ++ LF) = true).
  { apply isWellFormed_app; [exact Hbuffer|].
    apply isWellFormed_app; [|reflexivity].
    apply logLine_wellFormed; assumption. }
  destruct (saveEventToFile_returns stack line (withConsole line (tick w)) Hline)
    as [w' Hrun].
  destruct (logEvent_console (S (S stack)) eventType objectType objectDescription w)
    as [nested [Hconsole Hnested]].
  rewrite logEvent_step in Hconsole. fold line in Hconsole.
  assert (Hbeacons : exists later,
             beacons w'
             = beacons w ++ (js "/tracking-endpoint", mkBlob (line ++ LF) (js "text/plain"))
                         :: later).
  { pose proof Hrun as Hrun'. rewrite saveEventToFile_step in Hrun'.
    destruct (10000 <? _)%Z.
    - destruct (quiet_beacons _ _ (downloadTrackingData_quiet (S stack)
                  (appended line (withConsole line (tick w))))) as [bs Hbs].
      rewrite Hrun' in Hbs. cbn [snd] in Hbs. exists bs. rewrite Hbs.
      simpl. rewrite <- app_assoc. reflexivity.
    - injection Hrun' as <-. exists []. reflexivity. }
  destruct Hbeacons as [later Hlater].
  exists w', nested, later. rewrite logEvent_step. fold line.
  rewrite Hrun in Hconsole. repeat split; assumption.
Qed.

(** ** The file an export downloads *)

(** An export of a well-formed buffer at a moment whose year has four
    digits: the file is named after that moment's date, its type is
    text/plain, and the octets of its body are the UTF-8 encoding of the
    buffer as the export read it. *)
Lemma downloadTrackingData_file (stack : nat) (w : World) :
  isString (buffer w) = true ->
  isWellFormed (buffer w) = true ->
  (let '(y, _, _) := civilFromDays (clock w (clockReads w) / msPerDay) in 0 <= y <= 9999)%Z ->
  exists encoded nested w',
    downloadTrackingData (S stack) w = (Normal tt, w')
    /\ downloads w'
       = downloads w ++ nested
           ++ [mkDownload (js "tracking_data_" ++ isoDate (clock w (clockReads w)) ++ js ".txt")
                          (js "data:text/plain;charset=utf-8," ++ encoded)]
    /\ percentDecode encoded = utf8 (buffer w)
    /\ buffer w' = [].
Proof.
  intros Hstring Hwf Hyear.
  destruct (downloadTrackingData_exports stack w Hwf)
    as (encoded & nested & w' & Hrun & Henc & Hdownloads & Hbuffer).
  exists encoded, nested, w'. split; [exact Hrun|]. split; [|split].
  - rewrite Hdownloads. unfold exportLink.
    rewrite (proj1 (slice_toISOString _ Hyear)). reflexivity.
  - exact (percentDecode_encodeURIComponent _ _ Hstring Henc).
  - exact Hbuffer.
Qed.

(** ** An export while the click listener is registered *)


Lemma downloads_withItem (key value : jsstring) (w : World) :
  downloads (withItem key value w) = downloads w.
Proof. reflexivity. Qed.

Lemma downloads_withDownload (d : Download) (w : World) :
  downloads (withDownload d w) = downloads w ++ [d].
Proof. reflexivity. Qed.

Lemma buffer_tick (w : World) : buffer (tick w) = buffer w.
Proof. reflexivity. Qed.

Lemma buffer_withConsole (line : jsstring) (w : World) : buffer (withConsole line w) = buffer w.
Proof. reflexivity. Qed.

Lemma jslength_app (s1 s2 : jsstring) : jslength (s1 ++ s2) = (jslength s1 + jslength s2)%Z.
Proof. unfold jslength. rewrite length_app. lia. Qed.

Lemma jslength_nonneg (s : jsstring) : (0 <= jslength s)%Z.
Proof. unfold jslength. lia. Qed.

(** Once the click listener is registered, an export of a well-formed
    buffer that has room on the stack for the listener's own calls does not
    download one file: the click on the export link is logged, that log is
    past the threshold too and exports again, and the inner file is
    downloaded before the outer one. *)
Theorem export_reenters (stack : nat) (eventData : jsstring) (w : World) :
  clickListener w = true ->
  (10000 < jslength (buffer w))%Z ->
  isWellFormed (buffer w ++ eventData ++ LF) = true ->
  exists encoded inner later,
    encodeURIComponent (buffer w ++ eventData ++ LF) = Normal encoded
    /\ downloads (snd (saveEventToFile (S (S (S (S (S (S stack)))))) eventData w))
       = downloads w ++ inner ++ [exportLink (clock w (clockReads w)) encoded]
    /\ inner <> []
    /\ console (snd (saveEventToFile (S (S (S (S (S (S stack)))))) eventData w))
       = console w
           ++ logLine (clock w (S (clockReads w))) (js "click") (js "link") (js "a") :: later.
Proof.
  intros Hlistener Hlong Hwf.
  rewrite saveEventToFile_step. pose proof Hlong as Hlong'.
  apply Z.ltb_lt in Hlong'. rewrite Hlong'.
  pose proof Hwf as Hwf'. rewrite <- buffer_appended in Hwf'.
  destruct (encodeURIComponent_returns _ Hwf') as [encoded Henc].
  rewrite downloadTrackingData_step, Henc.
  change (clickListener (appended eventData w)) with (clickListener w). rewrite Hlistener.
  cbn [snd]. set (w1 := tick (appended eventData w)).
  destruct (afterListener_fields (onDocumentClick (S (S (S (S stack)))) downloadLink) w1)
    as (_ & Hdownloads & _ & _ & Hconsole).
  change (console (withItem storageKey [] ?x)) with (console x).
  rewrite downloads_withItem, downloads_withDownload.
  change (console (withDownload ?d ?x)) with (console x).
  rewrite Hdownloads, Hconsole, onDocumentClick_link.
  set (line := logLine (clock w1 (clockReads w1)) (js "click") (js "link") (js "a")).
  destruct (logEvent_console (S (S stack)) (js "click") (js "link") (js "a") w1)
    as [later [Hlines _]].
  (* the nested export *)
  assert (Hinner : exists inner,
            downloads (snd (logEvent (S (S (S stack))) (js "click") (js "link") (js "a") w1))
            = downloads w ++ inner /\ inner <> []).
  { rewrite logEvent_step. fold line. set (w2 := withConsole line (tick w1)).
    rewrite saveEventToFile_step.
    assert (Hb2 : buffer w2 = buffer w ++ eventData ++ LF)
      by exact (buffer_appended eventData w).
    assert (Hlong2 : (10000 <? jslength (buffer w2))%Z = true).
    { apply Z.ltb_lt. rewrite Hb2, jslength_app.
      pose proof (jslength_nonneg (eventData ++ LF)). lia. }
    rewrite Hlong2.
    assert (Hwf2 : isWellFormed (buffer (appended line w2)) = true).
    { rewrite buffer_appended, Hb2. apply isWellFormed_app; [exact Hwf|].
      apply isWellFormed_app; [|reflexivity]. apply logLine_wellFormed; reflexivity. }
    destruct (downloadTrackingData_exports stack _ Hwf2)
      as (encoded2 & nested & w3 & Hrun & _ & Hd & _).
    rewrite Hrun. cbn [snd]. rewrite Hd.
    change (downloads (appended line w2)) with (downloads w).
    eexists. split; [reflexivity|]. destruct nested; discriminate. }
  destruct Hinner as (inner & Hinner & Hne).
  exists encoded, inner, later. rewrite <- buffer_appended.
  split; [exact Henc|]. split; [|split; [exact Hne|]].
  - rewrite Hinner, <- app_assoc. reflexivity.
  - exact Hlines.
Qed.

(** Before the click listener is registered (the page view that
    DOMContentLoaded logs), an export of a well-formed buffer downloads
    one file. *)
Lemma export_once (stack : nat) (eventData : jsstring) (w : World) :
  clickListener w = false ->
  (10000 < jslength (buffer w))%Z ->
  isWellFormed (buffer w ++ eventData ++ LF) = true ->
  exists encoded,
    encodeURIComponent (buffer w ++ eventData ++ LF) = Normal encoded
    /\ downloads (snd (saveEventToFile (S (S stack)) eventData w))
       = downloads w ++ [exportLink (clock w (clockReads w)) encoded].
Proof.
  intros Hlistener Hlong Hwf.
  rewrite saveEventToFile_step. apply Z.ltb_lt in Hlong. rewrite Hlong.
  rewrite <- buffer_appended in Hwf.
  destruct (encodeURIComponent_returns _ Hwf) as [encoded Henc].
  rewrite downloadTrackingData_step, Henc.
  change (clickListener (appended eventData w)) with (clickListener w). rewrite Hlistener.
  exists encoded. rewrite <- buffer_appended. split; [exact Henc | reflexivity].
Qed.

(** The script stores under one key: every other item of [localStorage]
    is as it was after any call of [saveEventToFile]. *)
Lemma saveEventToFile_frame (stack : nat) (eventData key : jsstring) (w : World) :
  key <> storageKey ->
  localStorage (snd (saveEventToFile stack eventData w)) !! key = localStorage w !! key.
Proof. apply quiet_storage, saveEventToFile_quiet. Qed.

(** ** More about strings: [trim], [split] and [join] *)

Lemma trimStart_spec (s : jsstring) :
  exists lead,
    s = lead ++ trimStart s
    /\ forallb isWhiteSpace lead = true
    /\ match trimStart s with
       | [] => True
       | c :: _ => isWhiteSpace c = false
       end.
Proof.
  induction s as [|c s (lead & Hs & Hlead & Hhead)].
  - exists []. repeat split.
  - simpl. destruct (isWhiteSpace c) eqn:Hc.
    + exists (c :: lead). simpl. rewrite Hc, Hlead.
      split; [congruence | split; [reflexivity | exact Hhead]].
    + exists []. repeat split. exact Hc.
Qed.

Lemma forallb_rev {A} (f : A -> bool) (l : list A) : forallb f (rev l) = forallb f l.
Proof.
  induction l as [|a l IH]; [reflexivity|].
  simpl. rewrite forallb_app, IH. simpl. rewrite andb_true_r. apply andb_comm.
Qed.

(** [s.trim()] takes white space off both ends and nothing else: what is
    left begins and ends with a code unit that is not white space. *)
Lemma trim_spec (s : jsstring) :
  exists lead trail,
    s = lead ++ trim s ++ trail
    /\ forallb isWhiteSpace lead = true
    /\ forallb isWhiteSpace trail = true
    /\ match trim s with
       | [] => True
       | c :: _ => isWhiteSpace c = false
       end
    /\ match rev (trim s) with
       | [] => True
       | c :: _ => isWhiteSpace c = false
       end.
Proof.
  destruct (trimStart_spec s) as (lead & Hs & Hlead & Hhead).
  destruct (trimStart_spec (rev (trimStart s))) as (liart & Hr & Hliart & Hlast).
  unfold trim, trimEnd.
  set (core := trimStart (rev (trimStart s))) in *.
  assert (Hmid : trimStart s = rev core ++ rev liart).
  { rewrite <- rev_app_distr, <- Hr, rev_involutive. reflexivity. }
  exists lead, (rev liart). repeat split.
  - rewrite <- Hmid. exact Hs.
  - exact Hlead.
  - rewrite forallb_rev. exact Hliart.
  - rewrite Hmid in Hhead. destruct (rev core) as [|c r] eqn:Hcore; [exact I|].
    exact Hhead.
  - rewrite rev_involutive. exact Hlast.
Qed.

Lemma trim_nil_iff (s : jsstring) : trim s = [] <-> forallb isWhiteSpace s = true.
Proof.
  split; [|apply trim_all_white].
  intros Hnil. destruct (trim_spec s) as (lead & trail & Hs & Hlead & Htrail & _).
  rewrite Hnil in Hs. rewrite Hs, forallb_app.
  apply andb_true_iff. split; [exact Hlead | exact Htrail].
Qed.

(** Joining the pieces of a split with the separator gives the string
    back, and no piece holds the separator. *)
Lemma split_nonempty (sep : code_unit) (s : jsstring) : split sep s <> [].
Proof.
  destruct s as [|c s]; simpl; [discriminate|].
  destruct (c =? sep)%N; [discriminate|]. destruct (split sep s); discriminate.
Qed.

Lemma join_cons (sep piece : jsstring) (pieces : list jsstring) :
  pieces <> [] -> join sep (piece :: pieces) = piece ++ sep ++ join sep pieces.
Proof. destruct pieces; [contradiction | reflexivity]. Qed.

Lemma join_split (sep : code_unit) (s : jsstring) : join [sep] (split sep s) = s.
Proof.
  induction s as [|c s IH]; [reflexivity|].
  simpl. destruct (N.eqb_spec c sep) as [->|Hc].
  - rewrite join_cons by apply split_nonempty. rewrite IH. reflexivity.
  - pose proof (split_nonempty sep s) as Hne.
    destruct (split sep s) as [|piece pieces]; [contradiction|].
    destruct pieces as [|piece' pieces].
    + simpl in *. congruence.
    + rewrite join_cons by discriminate. rewrite join_cons in IH by discriminate.
      rewrite <- IH. reflexivity.
Qed.

Lemma split_pieces (sep : code_unit) (s : jsstring) :
  Forall (fun piece => sep ∉ piece) (split sep s).
Proof.
  induction s as [|c s IH]; simpl.
  - constructor; [apply not_elem_of_nil | constructor].
  - destruct (N.eqb_spec c sep) as [->|Hc].
    + constructor; [apply not_elem_of_nil | exact IH].
    + destruct (split sep s) as [|piece pieces]; [repeat constructor|].
      * intros H. apply list_elem_of_singleton in H. congruence.
      * inversion IH as [|? ? Hpiece Hpieces]; subst. constructor; [|exact Hpieces].
        intros H. apply elem_of_cons in H as [H|H]; [congruence | contradiction].
Qed.

Lemma join_split_spaces (s : jsstring) : join (js ".") (split 32%N s) = map dotForSpace s.
Proof.
  induction s as [|c s IH]; [reflexivity|].
  simpl. unfold dotForSpace at 1. destruct (c =? 32)%N.
  - rewrite join_cons by apply split_nonempty. rewrite IH. reflexivity.
  - pose proof (split_nonempty 32%N s) as Hne.
    destruct (split 32%N s) as [|piece pieces]; [contradiction|].
    destruct pieces as [|piece' pieces].
    + cbn [join] in *. rewrite IH. reflexivity.
    + rewrite join_cons by discriminate. rewrite join_cons in IH by discriminate.
      rewrite <- IH. reflexivity.
Qed.

Lemma join_snoc (sep : jsstring) (pieces : list jsstring) (piece : jsstring) :
  pieces <> [] -> join sep (pieces ++ [piece]) = join sep pieces ++ sep ++ piece.
Proof.
  induction pieces as [|p pieces IH]; [contradiction|]. intros _.
  destruct pieces as [|p' pieces]; [reflexivity|].
  change ((p :: p' :: pieces) ++ [piece]) with (p :: ((p' :: pieces) ++ [piece])).
  rewrite join_cons by (simpl; discriminate).
  rewrite IH by discriminate. rewrite (join_cons sep p (p' :: pieces)) by discriminate.
  rewrite <- !app_assoc. reflexivity.
Qed.

(** The last piece of a split is what follows the last separator. *)
Lemma popLast_split (sep : code_unit) (s : jsstring) :
  exists before,
    s = before ++ popLast (split sep s)
    /\ (sep ∉ popLast (split sep s))
    /\ (before = [] \/ exists rest, before = rest ++ [sep]).
Proof.
  pose proof (join_split sep s) as Hjoin. pose proof (split_pieces sep s) as Hpieces.
  destruct (exists_last (split_nonempty sep s)) as (init & piece & Heq).
  rewrite Heq in Hjoin, Hpieces |- *.
  unfold popLast. rewrite List.last_last.
  apply Forall_app in Hpieces as [_ Hlast]. apply Forall_inv in Hlast as Hp.
  destruct init as [|q qs].
  - exists []. simpl in *. repeat split; auto.
  - rewrite join_snoc in Hjoin by discriminate.
    exists (join [sep] (q :: qs) ++ [sep]). repeat split.
    + rewrite <- Hjoin at 1. rewrite <- app_assoc. reflexivity.
    + exact Hp.
    + right. eauto.
Qed.

(** ** More about the describer *)

Lemma existsb_not_white (s : jsstring) :
  existsb (fun c => negb (isWhiteSpace c)) s = true -> trim s <> [].
Proof.
  intros Hsome Hnil. apply trim_nil_iff in Hnil.
  induction s as [|c s IH]; [discriminate|].
  simpl in Hsome, Hnil. apply andb_true_iff in Hnil as [Hc Hs].
  rewrite Hc in Hsome. exact (IH Hsome Hs).
Qed.

Lemma describeWithoutText_reached (element : Element.t) :
  Element.id element = [] ->
  forallb isWhiteSpace (Element.textContent element) = true ->
  getElementDescription element = describeWithoutText element.
Proof.
  intros Hid Hwhite. unfold getElementDescription. rewrite Hid. simpl.
  rewrite (trim_all_white _ Hwhite). simpl. rewrite andb_false_r. reflexivity.
Qed.

Lemma afterLastSlash_plain (s : jsstring) : 47%N ∉ s -> afterLastSlash s = s.
Proof.
  destruct s as [|c s]; [reflexivity|]. intros Hs.
  apply not_elem_of_cons in Hs as [Hc Hs]. cbn [afterLastSlash].
  assert (Hnone : existsb (N.eqb 47) s = false).
  { apply not_true_is_false. intros Hsome. apply existsb_exists in Hsome as (x & Hin & Hx).
    apply N.eqb_eq in Hx. subst x. apply Hs, list_elem_of_In, Hin. }
  rewrite Hnone. destruct (N.eqb_spec c 47); [congruence | reflexivity].
Qed.

Lemma afterLastSlash_app (before piece : jsstring) :
  47%N ∉ piece -> afterLastSlash (before ++ 47%N :: piece) = piece.
Proof.
  intros Hpiece.
  assert (Hnone : existsb (N.eqb 47) piece = false).
  { apply not_true_is_false. intros Hsome. apply existsb_exists in Hsome as (x & Hin & Hx).
    apply N.eqb_eq in Hx. subst x. apply Hpiece, list_elem_of_In, Hin. }
  induction before as [|c before IH].
  - cbn [app afterLastSlash]. rewrite Hnone. reflexivity.
  - cbn [app afterLastSlash]. rewrite existsb_app. cbn [existsb]. rewrite N.eqb_refl.
    rewrite orb_true_r. exact IH.
Qed.

(** [src.split('/').pop()] is what follows the last slash. *)
Lemma popLast_afterLastSlash (src : jsstring) :
  popLast (split 47%N src) = afterLastSlash src.
Proof.
  destruct (popLast_split 47%N src) as (before & Hsplit & Hslash & [->|[rest ->]]).
  - rewrite Hsplit at 2. symmetry. apply afterLastSlash_plain, Hslash.
  - rewrite Hsplit at 2. rewrite <- app_assoc. symmetry.
    apply afterLastSlash_app, Hslash.
Qed.

(** C10. With an empty id, a text that is not empty but is white space only
    gives no description and the later rules decide: a class attribute that
    is a non-empty string gives a dot and the attribute with its spaces
    turned into dots; otherwise an image gives its alt text or, without
    one, what follows the last slash of its src; otherwise the lower-case
    tag name is the description. And when the text rule does apply, the
    description has at most 30 code units. *)
Theorem getElementDescription_blank_text (element : Element.t) :
  Element.id element = [] ->
  (Element.textContent element <> [] ->
   forallb isWhiteSpace (Element.textContent element) = true ->
   getElementDescription element
   = match Element.className element with
     | ClassString ((_ :: _) as className) => Normal (46%N :: map dotForSpace className)
     | _ =>
         if bool_decide (toLowerCase (Element.tagName element) = js "img") then
           match Element.alt element, Element.src element with
           | Some ((_ :: _) as alt), _ => Normal alt
           | _, Some src => Normal (afterLastSlash src)
           | _, None => Throw TypeError
           end
         else Normal (toLowerCase (Element.tagName element))
     end)
  /\ (trim (Element.textContent element) <> [] ->
      exists description,
        getElementDescription element = Normal description
        /\ length description <= 30).
Proof.
  intros Hid. split.
  - intros _ Hwhite. rewrite (describeWithoutText_reached element Hid Hwhite).
    unfold describeWithoutText.
    destruct (Element.className element) as [[|c className]|baseVal];
      try (rewrite join_split_spaces; reflexivity);
      (destruct (bool_decide (toLowerCase (Element.tagName element) = js "img"));
       [|reflexivity];
       destruct (Element.alt element) as [[|a alt]|]; try reflexivity;
       destruct (Element.src element) as [src|]; try reflexivity;
       cbn [truthy_opt truthy]; rewrite popLast_afterLastSlash; reflexivity).
  - intros Htext. rewrite (text_rule element Hid Htext).
    destruct (decide _) as [Hlong|Hshort]; eexists; split; try reflexivity.
    + rewrite length_app, length_take. change (length (js "...")) with 3. lia.
    + lia.
Qed.

(** The description by text, in terms of the text itself: with an empty id
    and a text that holds a code unit other than white space, what is
    described is the text between its leading and trailing white space,
    whole when it has at most 30 code units and cut to 27 plus ['...']
    otherwise. *)
Theorem getElementDescription_trimmed (element : Element.t) :
  Element.id element = [] ->
  existsb (fun c => negb (isWhiteSpace c)) (Element.textContent element) = true ->
  exists lead text trail,
    Element.textContent element = lead ++ text ++ trail
    /\ forallb isWhiteSpace lead = true
    /\ forallb isWhiteSpace trail = true
    /\ (exists c rest, text = c :: rest /\ isWhiteSpace c = false)
    /\ (exists c rest, text = rest ++ [c] /\ isWhiteSpace c = false)
    /\ getElementDescription element
       = Normal (if decide (30 < length text) then take 27 text ++ js "..." else text).
Proof.
  intros Hid Hsome. pose proof (existsb_not_white _ Hsome) as Htext.
  destruct (trim_spec (Element.textContent element))
    as (lead & trail & Hsplit & Hlead & Htrail & Hhead & Hlast).
  exists lead, (trim (Element.textContent element)), trail.
  split; [exact Hsplit|]. split; [exact Hlead|]. split; [exact Htrail|].
  split; [|split].
  - destruct (trim (Element.textContent element)) as [|c rest]; [contradiction|]. eauto.
  - destruct (rev (trim (Element.textContent element))) as [|c rest] eqn:Hrev.
    + apply (f_equal (@rev N)) in Hrev. rewrite rev_involutive in Hrev. contradiction.
    + exists c, (rev rest). split; [|exact Hlast].
      apply (f_equal (@rev N)) in Hrev. rewrite rev_involutive in Hrev. exact Hrev.
  - exact (text_rule element Hid Htext).
Qed.

(** The description by class names: with an empty id, no text but white
    space and a class attribute that is not empty, the description is a dot
    followed by the attribute with every space turned into a dot. Tabs and
    line feeds in the attribute stay; two spaces give two dots. *)
Theorem getElementDescription_classes (element : Element.t)
        (c : code_unit) (className : jsstring) :
  Element.id element = [] ->
  forallb isWhiteSpace (Element.textContent element) = true ->
  Element.className element = ClassString (c :: className) ->
  getElementDescription element = Normal (46%N :: map dotForSpace (c :: className)).
Proof.
  intros Hid Hwhite Hclass. rewrite (describeWithoutText_reached element Hid Hwhite).
  unfold describeWithoutText. rewrite Hclass, join_split_spaces. reflexivity.
Qed.

(** The description of an image by its source: with no id, text, class
    names or alt text, it is what follows the last slash of [src], the whole
    of [src] when there is no slash, and empty when [src] ends in one. *)
Theorem getElementDescription_src (element : Element.t) (src : jsstring) :
  Element.id element = [] ->
  forallb isWhiteSpace (Element.textContent element) = true ->
  (forall c className, Element.className element <> ClassString (c :: className)) ->
  toLowerCase (Element.tagName element) = js "img" ->
  truthy_opt (Element.alt element) = false ->
  Element.src element = Some src ->
  exists before description,
    getElementDescription element = Normal description
    /\ src = before ++ description
    /\ (47%N ∉ description)
    /\ (before = [] \/ exists rest, before = rest ++ [47%N]).
Proof.
  intros Hid Hwhite Hclass Htag Halt Hsrc.
  rewrite (describeWithoutText_reached element Hid Hwhite).
  destruct (popLast_split 47%N src) as (before & Hsplit & Hslash & Hbefore).
  exists before, (popLast (split 47%N src)).
  split; [|split; [exact Hsplit | split; [exact Hslash | exact Hbefore]]].
  unfold describeWithoutText. rewrite Htag, Halt, Hsrc.
  destruct (Element.className element) as [[|c className]|baseVal] eqn:E; try reflexivity.
  exfalso. exact (Hclass c className eq_refl).
Qed.

(** The describer throws on nothing but an image-named element that has no
    id, no text, no class names, no alt text and no [src] property at all
    (which an HTML image always has). *)
Theorem getElementDescription_throws_iff (element : Element.t) (e : Exn) :
  getElementDescription element = Throw e
  <-> e = TypeError
      /\ Element.id element = []
      /\ forallb isWhiteSpace (Element.textContent element) = true
      /\ (forall c className, Element.className element <> ClassString (c :: className))
      /\ toLowerCase (Element.tagName element) = js "img"
      /\ truthy_opt (Element.alt element) = false
      /\ Element.src element = None.
Proof.
  split.
  - intros Hthrow.
    destruct (Element.id element) as [|i id] eqn:Hid.
    2:{ unfold getElementDescription in Hthrow. rewrite Hid in Hthrow. discriminate. }
    destruct (forallb isWhiteSpace (Element.textContent element)) eqn:Hwhite.
    2:{ rewrite (text_rule element Hid) in Hthrow; [discriminate|].
        intros Hnil. apply trim_nil_iff in Hnil. congruence. }
    rewrite (describeWithoutText_reached element Hid Hwhite) in Hthrow.
    unfold describeWithoutText in Hthrow.
    destruct (Element.className element) as [[|c className]|baseVal] eqn:Hclass;
      try discriminate;
      (destruct (bool_decide (toLowerCase (Element.tagName element) = js "img")) eqn:Htag;
       [|discriminate];
       destruct (truthy_opt (Element.alt element)) eqn:Halt; [discriminate|];
       destruct (Element.src element) eqn:Hsrc; [discriminate|];
       injection Hthrow as <-;
       apply bool_decide_eq_true in Htag;
       repeat split; try assumption; try reflexivity; intros; discriminate).
  - intros (-> & Hid & Hwhite & Hclass & Htag & Halt & Hsrc).
    rewrite (describeWithoutText_reached element Hid Hwhite).
    unfold describeWithoutText. rewrite Htag, Halt, Hsrc.
    destruct (Element.className element) as [[|c className]|baseVal] eqn:E; try reflexivity.
    exfalso. exact (Hclass c className eq_refl).
Qed.

(** *** The cut at 27 code units and surrogate pairs *)

Lemma high_not_low (c : code_unit) : isHighSurrogate c = true -> isLowSurrogate c = false.
Proof.
  unfold isHighSurrogate, isLowSurrogate. intros H.
  apply andb_true_iff in H as [_ H]. apply N.leb_le in H.
  apply andb_false_iff. left. apply N.leb_gt. lia.
Qed.

(** A string begins plainly when it is empty or its first code unit is not
    the second half of a surrogate pair. *)
Definition beginsPlainly (s : jsstring) : bool :=
  match s with
  | [] => true
  | c :: _ => negb (isLowSurrogate c)
  end.

(** A first half of a pair that is followed by no second half makes the
    string ill formed, wherever it stands. *)
Lemma isWellFormed_lone_high (before after : jsstring) (hi : code_unit) :
  isHighSurrogate hi = true ->
  beginsPlainly after = true ->
  isWellFormed (before ++ hi :: after) = false.
Proof.
  intros Hhi Hafter.
  assert (Hbase : isWellFormed (hi :: after) = false).
  { rewrite isWellFormed_cons, (high_not_low hi Hhi), Hhi.
    destruct after as [|c after]; [reflexivity|].
    simpl in Hafter. apply negb_true_iff in Hafter. rewrite Hafter. reflexivity. }
  induction before as [|c|c d rest IH1 IH2] using jsstring_pair_ind.
  - exact Hbase.
  - change ([c] ++ hi :: after) with (c :: hi :: after).
    rewrite isWellFormed_cons. destruct (isLowSurrogate c); [reflexivity|].
    destruct (isHighSurrogate c); [|exact Hbase].
    rewrite (high_not_low hi Hhi). reflexivity.
  - change ((c :: d :: rest) ++ hi :: after) with (c :: d :: (rest ++ hi :: after)).
    rewrite isWellFormed_cons. destruct (isLowSurrogate c); [reflexivity|].
    destruct (isHighSurrogate c); [|exact IH1].
    rewrite IH2. apply andb_false_r.
Qed.

(** The cut of the text rule counts code units: when unit 26 of a text
    longer than 30 is the first half of a surrogate pair, the description
    ends in that half alone and is ill formed, however well formed the text
    was. *)
Theorem getElementDescription_cuts_pair (element : Element.t) (hi : code_unit) :
  Element.id element = [] ->
  30 < length (trim (Element.textContent element)) ->
  trim (Element.textContent element) !! 26 = Some hi ->
  isHighSurrogate hi = true ->
  exists description,
    getElementDescription element = Normal description
    /\ description = take 26 (trim (Element.textContent element)) ++ hi :: js "..."
    /\ isWellFormed description = false
    /\ encodeURIComponent description = Throw URIError.
Proof.
  intros Hid Hlong Hunit Hhi.
  assert (Htext : trim (Element.textContent element) <> []).
  { intros E. rewrite E in Hlong. simpl in Hlong. lia. }
  rewrite (text_rule element Hid Htext).
  destruct (decide (30 < length (trim (Element.textContent element)))) as [_|Hshort];
    [|contradiction].
  eexists. split; [reflexivity|].
  assert (Hcut : take 27 (trim (Element.textContent element))
                 = take 26 (trim (Element.textContent element)) ++ [hi])
    by exact (take_S_r _ 26 hi Hunit).
  rewrite Hcut, <- app_assoc.
  split; [reflexivity|].
  assert (Hill : isWellFormed (take 26 (trim (Element.textContent element))
                               ++ hi :: js "...") = false)
    by (apply isWellFormed_lone_high; [exact Hhi | reflexivity]).
  split; [exact Hill | exact (encodeURIComponent_throws _ Hill)].
Qed.

(** ** More about the classifier and the click listener *)

(** Where one of the rules before the class names applies the classifier
    returns its category without looking at [className]; where none does,
    the class names decide, and a [className] that is not a string throws. *)
Lemma determineElementType_before_classes (element : Element.t) :
  match firstApplicable rulesBeforeClasses element with
  | Some category => determineElementType element = Normal category
  | None =>
      match Element.className element with
      | ClassString _ => determineElementType element = Normal (classifyByRules element)
      | SVGAnimatedString _ => determineElementType element = Throw TypeError
      end
  end.
Proof.
  destruct (Element.className element) as [className|baseVal] eqn:Hclass.
  - rewrite (rules_refinement element className Hclass).
    unfold classifyByRules, rulesBeforeClasses, classifierRules, firstMatch, firstApplicable,
      take, tagRule, inputRule, insideRule, headingRule, tagIs.
    repeat match goal with
           | |- context [if ?b then _ else _] => destruct b
           | |- context [match Element.type element with _ => _ end] =>
               destruct (Element.type element) as [[|? ?]|]
           | |- context [match closest ?n element with _ => _ end] =>
               destruct (closest n element)
           end; reflexivity.
  - unfold determineElementType, rulesBeforeClasses, classifierRules, firstApplicable,
      take, tagRule, inputRule, insideRule, headingRule, tagIs.
    rewrite Hclass.
    repeat (destruct (bool_decide (toLowerCase (Element.tagName element) = _));
            [first [reflexivity
                   | destruct (Element.type element) as [[|c type]|]; reflexivity]|]).
    destruct (closest (js "nav") element) eqn:Hnav; [reflexivity|].
    change (bool_decide (is_Some (@None Element.t))) with false. cbv iota.
    destruct (bool_decide (toLowerCase (Element.tagName element) = _)); [reflexivity|].
    destruct (array_includes _ _); [reflexivity|].
    destruct (closest (js "form") element) eqn:Hform; [reflexivity|].
    change (bool_decide (is_Some (@None Element.t))) with false. reflexivity.
Qed.

(** The classifier throws exactly on the elements whose [className] is not
    a string and which no rule before the class names decides: SVG elements
    that are no link, have no nav and no form around them, and so on. *)
Theorem determineElementType_throws_iff (element : Element.t) (e : Exn) :
  determineElementType element = Throw e
  <-> e = TypeError
      /\ (exists baseVal, Element.className element = SVGAnimatedString baseVal)
      /\ firstApplicable rulesBeforeClasses element = None.
Proof.
  pose proof (determineElementType_before_classes element) as H.
  destruct (firstApplicable rulesBeforeClasses element) as [category|].
  - rewrite H. split; [discriminate|]. intros (_ & _ & Hnone). discriminate.
  - destruct (Element.className element) as [className|baseVal]; rewrite H.
    + split; [discriminate|]. intros (_ & [baseVal Hsvg] & _). discriminate.
    + split.
      * intros [= <-]. eauto.
      * intros (-> & _). reflexivity.
Qed.

(** A click whose classification or description throws leaves no trace:
    the listener is left before [logEvent] is called, so nothing is written
    to the console, queued for the endpoint or stored. *)
Theorem onDocumentClick_lost (stack : nat) (element : Element.t) (e : Exn) (w : World) :
  determineElementType element = Throw e
  \/ (getElementDescription element = Throw e
      /\ exists elementType, determineElementType element = Normal elementType) ->
  onDocumentClick (S stack) element w = (Throw e, w).
Proof.
  intros [Htype | [Hdescription [elementType Htype]]];
    cbn [onDocumentClick]; unfold bind, lift; rewrite Htype; [reflexivity|].
  rewrite Hdescription. reflexivity.
Qed.

(** A click on an element whose [className] is a string and that the
    describer describes: the console gets one line, stamped with the next
    clock reading, whose type is what the rules give and whose description
    is the describer's. Only clicks on export links are logged after it. *)
Theorem onDocumentClick_logs (stack : nat) (element : Element.t)
        (className description : jsstring) (w : World) :
  Element.className element = ClassString className ->
  getElementDescription element = Normal description ->
  exists nested,
    console (snd (onDocumentClick (S (S stack)) element w))
    = console w
        ++ logLine (clock w (clockReads w)) (js "click") (classifyByRules element) description
        :: nested
    /\ Forall isLinkClick nested.
Proof.
  intros Hclass Hdescription.
  cbn [onDocumentClick]. unfold bind, lift.
  rewrite (rules_refinement element className Hclass), Hdescription.
  apply logEvent_console.
Qed.

(** ** More about persistence *)

(** A logged event that downloads no file leaves exactly this world: the
    clock read once, the line on the console, queued for the endpoint and
    at the end of the buffer. *)
Lemma logEvent_world (stack : nat) (eventType objectType objectDescription : jsstring)
      (w : World) :
  downloads (snd (logEvent (S (S stack)) eventType objectType objectDescription w))
  = downloads w ->
  snd (logEvent (S (S stack)) eventType objectType objectDescription w)
  = appended (logLine (clock w (clockReads w)) eventType objectType objectDescription)
      (withConsole (logLine (clock w (clockReads w)) eventType objectType objectDescription)
                   (tick w)).
Proof.
  rewrite logEvent_step.
  set (line := logLine (clock w (clockReads w)) eventType objectType objectDescription).
  set (w0 := withConsole line (tick w)).
  rewrite saveEventToFile_step.
  destruct (10000 <? jslength (buffer w0))%Z; [|reflexivity].
  destruct stack as [|stack]; [reflexivity|].
  rewrite downloadTrackingData_step.
  destruct (encodeURIComponent (buffer (appended line w0))) as [encoded|e]; [|reflexivity].
  cbn [snd]. rewrite downloads_withItem, downloads_withDownload. intros Hsame. exfalso.
  set (w1 := if clickListener (appended line w0)
             then afterListener (onDocumentClick stack downloadLink) (tick (appended line w0))
             else tick (appended line w0)) in Hsame.
  assert (Hq : quiet (appended line w0) w1).
  { subst w1. destruct (clickListener (appended line w0)); [|apply quiet_tick].
    eapply quiet_trans; [apply quiet_tick|].
    apply quiet_afterListener, onDocumentClick_link_quiet. }
  destruct (quiet_downloads _ _ Hq) as [nested Hnested].
  rewrite Hnested in Hsame. change (downloads (appended line w0)) with (downloads w) in Hsame.
  rewrite <- app_assoc in Hsame. apply app_eq_self in Hsame.
  destruct nested; discriminate.
Qed.

Lemma afterListener_beacons (listener : JS unit) (w : World) :
  beacons (afterListener listener w) = beacons (snd (listener w)).
Proof. unfold afterListener. destruct (listener w) as [[[]|e] w']; reflexivity. Qed.

Lemma logAll_sinks (stack : nat) (events : list Event) (w : World) :
  downloads (snd (logAll (S (S stack)) events w)) = downloads w ->
  console (snd (logAll (S (S stack)) events w))
  = console w ++ expectedLines (clock w) (clockReads w) events
  /\ beacons (snd (logAll (S (S stack)) events w))
     = beacons w ++ map beaconOf (expectedLines (clock w) (clockReads w) events).
Proof.
  revert w. induction events as [|[[eventType objectType] objectDescription] events IH];
    intros w.
  - intros _. simpl. rewrite !app_nil_r. split; reflexivity.
  - rewrite logAll_cons.
    set (w1 := afterListener (logEvent (S (S stack)) eventType objectType objectDescription) w).
    destruct (afterListener_fields
                (logEvent (S (S stack)) eventType objectType objectDescription) w)
      as (_ & Hd & Hc & Hr & Hk).
    pose proof (afterListener_beacons
                  (logEvent (S (S stack)) eventType objectType objectDescription) w) as Hb.
    fold w1 in Hd, Hc, Hr, Hk, Hb.
    destruct (logEvent_downloads (S (S stack)) eventType objectType objectDescription w)
      as [[ds1 Hds1] _].
    destruct (logAll_downloads (S (S stack)) events w1) as [[ds2 Hds2] _].
    intros Hsame.
    assert (Hfirst : downloads w1 = downloads w).
    { rewrite Hds2, Hd, Hds1, <- app_assoc in Hsame. apply app_eq_self in Hsame.
      apply app_eq_nil in Hsame as [-> _]. rewrite Hd, Hds1, app_nil_r. reflexivity. }
    assert (Hrest : downloads (snd (logAll (S (S stack)) events w1)) = downloads w1).
    { rewrite Hfirst. exact Hsame. }
    destruct (IH w1 Hrest) as [IHconsole IHbeacons].
    rewrite Hd in Hfirst.
    pose proof (logEvent_world stack eventType objectType objectDescription w Hfirst)
      as Hworld.
    rewrite IHconsole, IHbeacons, Hk, Hb, Hc, Hr, Hworld.
    cbn [expectedLines map]. split.
    + simpl. rewrite <- app_assoc. reflexivity.
    + simpl. rewrite <- app_assoc. reflexivity.
Qed.

Lemma logAll_reads (stack : nat) (events : list Event) (w : World) :
  downloads (snd (logAll (S (S stack)) events w)) = downloads w ->
  clockReads (snd (logAll (S (S stack)) events w)) = clockReads w + length events.
Proof.
  revert w. induction events as [|[[eventType objectType] objectDescription] events IH];
    intros w.
  - intros _. simpl. lia.
  - rewrite logAll_cons.
    set (w1 := afterListener (logEvent (S (S stack)) eventType objectType objectDescription) w).
    destruct (afterListener_fields
                (logEvent (S (S stack)) eventType objectType objectDescription) w)
      as (_ & Hd & _ & Hr & _).
    fold w1 in Hd, Hr.
    destruct (logEvent_downloads (S (S stack)) eventType objectType objectDescription w)
      as [[ds1 Hds1] _].
    destruct (logAll_downloads (S (S stack)) events w1) as [[ds2 Hds2] _].
    intros Hsame.
    assert (Hfirst : downloads w1 = downloads w).
    { rewrite Hds2, Hd, Hds1, <- app_assoc in Hsame. apply app_eq_self in Hsame.
      apply app_eq_nil in Hsame as [-> _]. rewrite Hd, Hds1, app_nil_r. reflexivity. }
    assert (Hrest : downloads (snd (logAll (S (S stack)) events w1)) = downloads w1).
    { rewrite Hfirst. exact Hsame. }
    rewrite (IH w1 Hrest). rewrite Hd in Hfirst.
    rewrite Hr, (logEvent_world stack eventType objectType objectDescription w Hfirst).
    simpl. lia.
Qed.

(** Between exports the three sinks agree: the console, the queue for the
    endpoint and the buffer receive the same lines, in the same order, one
    for each event, stamped with successive readings of the clock. *)
Theorem sinks_agree (stack : nat) (events : list Event) (w : World) :
  downloads (snd (logAll (S (S stack)) events w)) = downloads w ->
  let lines := expectedLines (clock w) (clockReads w) events in
  console (snd (logAll (S (S stack)) events w)) = console w ++ lines
  /\ beacons (snd (logAll (S (S stack)) events w)) = beacons w ++ map beaconOf lines
  /\ buffer (snd (logAll (S (S stack)) events w)) = buffer w ++ asBuffer lines
  /\ clockReads (snd (logAll (S (S stack)) events w)) = clockReads w + length events.
Proof.
  intros Hsame lines.
  destruct (logAll_sinks stack events w Hsame) as [Hconsole Hbeacons].
  split; [exact Hconsole|]. split; [exact Hbeacons|].
  split; [exact (logAll_buffer stack events w Hsame) | exact (logAll_reads stack events w Hsame)].
Qed.

(** *** Reading the buffer back *)

Lemma split_record (line rest : jsstring) :
  10%N ∉ line -> split 10%N (line ++ LF ++ rest) = line :: split 10%N rest.
Proof.
  induction line as [|c line IH]; intros Hline.
  - reflexivity.
  - apply not_elem_of_cons in Hline as [Hc Hline].
    change ((c :: line) ++ LF ++ rest) with (c :: (line ++ LF ++ rest)).
    cbn [split]. destruct (N.eqb_spec c 10); [congruence|].
    rewrite (IH Hline). reflexivity.
Qed.

Lemma split_asBuffer (lines : list jsstring) :
  Forall (fun line => 10%N ∉ line) lines ->
  split 10%N (asBuffer lines) = lines ++ [[]].
Proof.
  induction 1 as [|line lines Hline _ IH]; [reflexivity|].
  unfold asBuffer in *. cbn [map concat]. rewrite <- app_assoc, (split_record _ _ Hline), IH.
  reflexivity.
Qed.

Lemma digit_range (n : Z) : (48 <= digit n <= 57)%N.
Proof. unfold digit. pose proof (Z.mod_pos_bound n 10 eq_refl). lia. Qed.

(** The code units of a time stamp are digits, signs, [-], [.], [:], [T]
    and [Z]: none below [+]. *)
Lemma toISOString_units (t : Z) : Forall (fun c => (43 <= c)%N) (toISOString t).
Proof.
  assert (Hdigit : forall n, (43 <= digit n)%N) by (intros n; pose proof (digit_range n); lia).
  unfold toISOString, isoDate, isoTime, isoYear.
  destruct (civilFromDays (t / msPerDay)) as [[y m] d].
  destruct ((0 <=? y)%Z && (y <=? 9999)%Z); [|destruct (y <? 0)%Z];
    repeat (apply Forall_app; split); unfold pad2, pad3, pad4, pad6;
    repeat constructor; try apply Hdigit; try (vm_compute; discriminate).
Qed.

Lemma logLine_no_LF (t : Z) (eventType objectType objectDescription : jsstring) :
  10%N ∉ eventType -> 10%N ∉ objectType -> 10%N ∉ objectDescription ->
  10%N ∉ logLine t eventType objectType objectDescription.
Proof.
  intros Hkind Htype Hdescription. unfold logLine.
  rewrite !not_elem_of_app. repeat split; try assumption.
  - intros Hin. pose proof (toISOString_units t) as Hunits.
    rewrite Forall_forall in Hunits. specialize (Hunits _ Hin). lia.
  - vm_compute. intros Hin. repeat (apply elem_of_cons in Hin as [Hin|Hin]; [discriminate|]).
    inversion Hin.
  - vm_compute. intros Hin. repeat (apply elem_of_cons in Hin as [Hin|Hin]; [discriminate|]).
    inversion Hin.
  - vm_compute. intros Hin. repeat (apply elem_of_cons in Hin as [Hin|Hin]; [discriminate|]).
    inversion Hin.
Qed.

(** [s] holds no line feed. *)
Definition noLineFeed (s : jsstring) : bool := forallb (fun c => negb (c =? 10)%N) s.

(** An event none of whose three strings holds a line feed. *)
Definition oneLine (event : Event) : bool :=
  let '(eventType, objectType, objectDescription) := event in
  noLineFeed eventType && noLineFeed objectType && noLineFeed objectDescription.

Lemma noLineFeed_spec (s : jsstring) : noLineFeed s = true -> 10%N ∉ s.
Proof.
  induction s as [|c s IH]; intros Hs.
  - apply not_elem_of_nil.
  - simpl in Hs. apply andb_true_iff in Hs as [Hc Hs].
    apply not_elem_of_cons. split; [|exact (IH Hs)].
    apply negb_true_iff, N.eqb_neq in Hc. congruence.
Qed.

Lemma expectedLines_no_LF (clock : nat -> Z) (n : nat) (events : list Event) :
  forallb oneLine events = true ->
  Forall (fun line => 10%N ∉ line) (expectedLines clock n events).
Proof.
  revert n.
  induction events as [|[[eventType objectType] objectDescription] events IH];
    intros n Hevents; cbn [expectedLines]; constructor.
  - simpl in Hevents. apply andb_true_iff in Hevents as [Hevent _].
    apply andb_true_iff in Hevent as [Hevent Hd].
    apply andb_true_iff in Hevent as [Hk Ht].
    apply logLine_no_LF; apply noLineFeed_spec; assumption.
  - simpl in Hevents. apply andb_true_iff in Hevents as [_ Hevents]. exact (IH _ Hevents).
Qed.

(** Starting from an empty buffer and as long as no file is downloaded,
    splitting the buffer at the line feeds gives the records back, one
    piece for each logged event in the order of the events and an empty
    piece after the last, provided no event string holds a line feed (the
    script escapes none: a description with a line feed in it spreads its
    record over two lines). *)
Theorem records_read_back (stack : nat) (events : list Event) (w : World) :
  buffer w = [] ->
  forallb oneLine events = true ->
  downloads (snd (logAll (S (S stack)) events w)) = downloads w ->
  split 10%N (buffer (snd (logAll (S (S stack)) events w)))
  = expectedLines (clock w) (clockReads w) events ++ [[]].
Proof.
  intros Hempty Hevents Hsame.
  rewrite (logAll_buffer stack events w Hsame), Hempty. cbn [app].
  apply split_asBuffer, expectedLines_no_LF, Hevents.
Qed.

(** *** A missing key *)

(** When nothing is stored under the key, [saveEventToFile] takes the
    buffer to be empty: it stores the record with its line feed and exports
    nothing, exactly as it does when the empty string is stored. *)
Theorem saveEventToFile_missing_key (stack : nat) (eventData : jsstring) (w : World) :
  localStorage w !! storageKey = None ->
  exists w',
    saveEventToFile (S stack) eventData w = (Normal tt, w')
    /\ localStorage w' = <[storageKey := eventData ++ LF]> (localStorage w)
    /\ downloads w' = downloads w
    /\ saveEventToFile (S stack) eventData (withItem storageKey [] w) = (Normal tt, w').
Proof.
  intros Hmissing.
  assert (Hbuffer : buffer w = []) by exact (f_equal (default []) Hmissing).
  exists (appended eventData w). split; [|split; [|split]].
  - apply saveEventToFile_appends. rewrite Hbuffer. vm_compute. discriminate.
  - unfold appended. simpl. rewrite Hbuffer. reflexivity.
  - reflexivity.
  - rewrite saveEventToFile_appends
      by (rewrite buffer_withItem; vm_compute; discriminate).
    f_equal. unfold appended. rewrite buffer_withItem, Hbuffer.
    unfold withItem, withBeacon. simpl. f_equal. apply insert_insert_eq.
Qed.

(** *** The clock *)



(** *** A lone surrogate in the buffer *)

Lemma isWellFormed_app_false (s1 s2 : jsstring) :
  isWellFormed s1 = false -> beginsPlainly s2 = true -> isWellFormed (s1 ++ s2) = false.
Proof.
  intros H1 H2. revert H1.
  induction s1 as [|c|c d rest IH1 IH2] using jsstring_pair_ind.
  - discriminate.
  - change ([c] ++ s2) with (c :: s2). rewrite !isWellFormed_cons.
    destruct (isLowSurrogate c); [reflexivity|].
    destruct (isHighSurrogate c); [|discriminate]. intros _.
    destruct s2 as [|c2 s2]; [reflexivity|].
    simpl in H2. apply negb_true_iff in H2. rewrite H2. reflexivity.
  - change ((c :: d :: rest) ++ s2) with (c :: d :: (rest ++ s2)).
    rewrite !(isWellFormed_cons c).
    destruct (isLowSurrogate c); [reflexivity|].
    destruct (isHighSurrogate c); [|exact IH1].
    intros H. apply andb_false_iff in H as [H|H].
    + rewrite H. reflexivity.
    + rewrite (IH2 H). apply andb_false_r.
Qed.

Lemma beginsPlainly_logLine (t : Z) (eventType objectType objectDescription rest : jsstring) :
  beginsPlainly (logLine t eventType objectType objectDescription ++ rest) = true.
Proof.
  pose proof (toISOString_ascii t) as Hascii.
  unfold logLine. destruct (toISOString t) as [|c stamp] eqn:Hstamp.
  - exfalso. revert Hstamp. unfold toISOString, isoDate, isoYear.
    destruct (civilFromDays (t / msPerDay)) as [[y m] d].
    destruct ((0 <=? y)%Z && (y <=? 9999)%Z); [|destruct (y <? 0)%Z]; discriminate.
  - simpl in Hascii. apply andb_true_iff in Hascii as [Hc _].
    simpl. apply negb_true_iff. exact (proj1 (isAscii_not_surrogate c Hc)).
Qed.

Lemma logEvent_poisoned (stack : nat) (eventType objectType objectDescription : jsstring)
      (w : World) :
  isWellFormed (buffer w) = false ->
  downloads (snd (logEvent stack eventType objectType objectDescription w)) = downloads w
  /\ isWellFormed (buffer (snd (logEvent stack eventType objectType objectDescription w)))
     = false.
Proof.
  intros Hill.
  destruct stack as [|stack]; [split; [reflexivity | exact Hill]|].
  rewrite logEvent_step.
  set (line := logLine (clock w (clockReads w)) eventType objectType objectDescription).
  set (w0 := withConsole line (tick w)).
  destruct stack as [|stack]; [split; [reflexivity | exact Hill]|].
  assert (Hill' : isWellFormed (buffer (appended line w0)) = false).
  { rewrite buffer_appended. change (buffer w0) with (buffer w).
    apply isWellFormed_app_false; [exact Hill|]. apply beginsPlainly_logLine. }
  rewrite saveEventToFile_step.
  destruct (10000 <? jslength (buffer w0))%Z; [|split; [reflexivity | exact Hill']].
  destruct stack as [|stack]; [split; [reflexivity | exact Hill']|].
  rewrite (downloadTrackingData_throws stack _ Hill'). split; [reflexivity | exact Hill'].
Qed.

Lemma logAll_poisoned (stack : nat) (events : list Event) (w : World) :
  isWellFormed (buffer w) = false ->
  downloads (snd (logAll stack events w)) = downloads w
  /\ isWellFormed (buffer (snd (logAll stack events w))) = false.
Proof.
  revert w. induction events as [|[[eventType objectType] objectDescription] events IH];
    intros w Hill.
  - split; [reflexivity | exact Hill].
  - rewrite logAll_cons.
    destruct (afterListener_fields (logEvent stack eventType objectType objectDescription) w)
      as (Hb & Hd & _).
    destruct (logEvent_poisoned stack eventType objectType objectDescription w Hill)
      as [Hsame Hill'].
    rewrite <- Hb in Hill'. destruct (IH _ Hill') as [IHd IHb].
    split; [|exact IHb]. rewrite IHd, Hd. exact Hsame.
Qed.

(** Once the buffer holds a lone surrogate no file is ever downloaded
    again: whatever is logged afterwards, every export throws, the buffer
    is never reset, stays ill formed and takes every further record. *)
Theorem poisoned_buffer_never_exports (stack : nat) (events : list Event) (w : World) :
  isWellFormed (buffer w) = false ->
  downloads (snd (logAll (S (S stack)) events w)) = downloads w
  /\ isWellFormed (buffer (snd (logAll (S (S stack)) events w))) = false
  /\ buffer (snd (logAll (S (S stack)) events w))
     = buffer w ++ asBuffer (expectedLines (clock w) (clockReads w) events).
Proof.
  intros Hill. destruct (logAll_poisoned (S (S stack)) events w Hill) as [Hsame Hill'].
  split; [exact Hsame|]. split; [exact Hill'|]. exact (logAll_buffer stack events w Hsame).
Qed.

(** ** Section views *)

Lemma startsWith_app (prefix rest : jsstring) : startsWith (prefix ++ rest) prefix = true.
Proof.
  induction prefix as [|c prefix IH]; simpl; [destruct rest; reflexivity|].
  rewrite N.eqb_refl. exact IH.
Qed.

Lemma isHeroView_linkClick (line : jsstring) : isLinkClick line -> isHeroView line = false.
Proof.
  intros [t ->]. unfold isHeroView, endsWith.
  change (logLine t (js "click") (js "link") (js "a"))
    with (toISOString t ++ js ", click, link:a").
  rewrite rev_app_distr. generalize (rev (toISOString t)). intros r. reflexivity.
Qed.

Ltac compare_units :=
  repeat match goal with
         | |- context [(?p =? ?c)%N] =>
             is_var c; destruct (N.eqb_spec p c) as [<-|?]; cbn [andb]; [|reflexivity]
         end.

(** Read from its end, a line is a hero view exactly when what follows
    [section:] is [hero], as long as that part holds no space. *)
Lemma heroSuffix (r rest : jsstring) :
  noSpace r = true ->
  startsWith (r ++ js ":noitces ,weiv ," ++ rest) (js "oreh:noitces ,weiv ,")
  = bool_decide (r = js "oreh").
Proof.
  intros Hr. destruct (decide (r = js "oreh")) as [->|Hne].
  - rewrite bool_decide_eq_true_2 by reflexivity.
    exact (startsWith_app (js "oreh:noitces ,weiv ,") rest).
  - rewrite bool_decide_eq_false_2 by exact Hne.
    do 13 (destruct r as [|? r];
           [cbn in Hne |- *; compare_units; first [reflexivity | contradiction]|]).
    cbn in Hr |- *. compare_units. discriminate.
Qed.

Lemma isHeroView_section (t : Z) (sectionId : jsstring) :
  noSpace sectionId = true ->
  isHeroView (logLine t (js "view") (js "section") sectionId)
  = bool_decide (sectionId = js "hero").
Proof.
  intros Hid. unfold isHeroView, endsWith.
  change (logLine t (js "view") (js "section") sectionId)
    with (toISOString t ++ js ", view, section:" ++ sectionId).
  rewrite !rev_app_distr, <- app_assoc.
  change (rev (js ", view, section:")) with (js ":noitces ,weiv ,").
  change (rev (js ", view, section:hero")) with (js "oreh:noitces ,weiv ,").
  rewrite heroSuffix by (unfold noSpace; rewrite forallb_rev; exact Hid).
  apply bool_decide_ext. split; intros H.
  - rewrite <- (rev_involutive sectionId), H. reflexivity.
  - rewrite H. reflexivity.
Qed.

Lemma heroViews_app (lines1 lines2 : list jsstring) :
  heroViews (lines1 ++ lines2) = heroViews lines1 + heroViews lines2.
Proof. unfold heroViews. rewrite List.filter_app, length_app. reflexivity. Qed.

Lemma heroViews_cons (line : jsstring) (lines : list jsstring) :
  heroViews (line :: lines) = (if isHeroView line then 1 else 0) + heroViews lines.
Proof. unfold heroViews. cbn [List.filter]. destruct (isHeroView line); reflexivity. Qed.

Lemma heroViews_linkClicks (lines : list jsstring) :
  Forall isLinkClick lines -> heroViews lines = 0.
Proof.
  induction 1 as [|line lines Hline _ IH]; [reflexivity|].
  unfold heroViews in *. simpl. rewrite (isHeroView_linkClick line Hline). exact IH.
Qed.

(** With a well-formed buffer and well-formed arguments [logEvent] returns
    and leaves a well-formed buffer: the buffer with the new record, or the
    empty buffer after an export. *)
Lemma logEvent_wellFormed (stack : nat) (eventType objectType objectDescription : jsstring)
      (w : World) :
  isWellFormed (buffer w) = true ->
  isWellFormed eventType = true ->
  isWellFormed objectType = true ->
  isWellFormed objectDescription = true ->
  exists w',
    logEvent (S (S (S stack))) eventType objectType objectDescription w = (Normal tt, w')
    /\ isWellFormed (buffer w') = true.
Proof.
  intros Hbuffer Hkind Htype Hdescription.
  rewrite logEvent_step.
  set (line := logLine (clock w (clockReads w)) eventType objectType objectDescription).
  set (w0 := withConsole line (tick w)).
  assert (Hwf : isWellFormed (buffer (appended line w0)) = true).
  { rewrite buffer_appended. change (buffer w0) with (buffer w).
    apply isWellFormed_app; [exact Hbuffer|].
    apply isWellFormed_app; [|reflexivity].
    apply logLine_wellFormed; assumption. }
  rewrite saveEventToFile_step.
  destruct (10000 <? jslength (buffer w0))%Z; [|eauto].
  destruct (downloadTrackingData_exports stack _ Hwf)
    as (encoded & nested & w' & Hrun & _ & _ & Hb).
  exists w'. split; [exact Hrun|]. rewrite Hb. reflexivity.
Qed.

(** One run of the callback on a batch, from a well-formed buffer: it
    returns, and the console has one more hero view for every entry of the
    batch that reports the hero section as intersecting. *)
Lemma sectionObserverCallback_batch (stack : nat) (entries : list IntersectionObserverEntry)
      (w : World) :
  isWellFormed (buffer w) = true ->
  forallb plainId entries = true ->
  exists w',
    sectionObserverCallback (S (S (S (S (S stack))))) entries w = (Normal tt, w')
    /\ isWellFormed (buffer w') = true
    /\ heroViews (console w')
       = heroViews (console w) + length (List.filter reportsHero entries).
Proof.
  unfold sectionObserverCallback, call. revert w.
  induction entries as [|entry entries IH]; intros w Hbuffer Hplain.
  - exists w. split; [reflexivity|]. split; [exact Hbuffer|]. simpl. lia.
  - cbn [forallb] in Hplain. apply andb_true_iff in Hplain as [Hentry Hplain].
    unfold plainId in Hentry. apply andb_true_iff in Hentry as [Hwf Hspace].
    cbn [forEach List.filter]. unfold bind, reportsHero at 1.
    destruct (isIntersecting entry); cbn [andb].
    + set (sectionId := if truthy (Element.id (target entry))
                        then Element.id (target entry) else js "unnamed-section").
      assert (Hid : isWellFormed sectionId = true /\ noSpace sectionId = true
                    /\ bool_decide (sectionId = js "hero")
                       = bool_decide (Element.id (target entry) = js "hero")).
      { subst sectionId. destruct (Element.id (target entry)) as [|c id].
        - repeat split. - repeat split; assumption. }
      destruct Hid as (Hwf' & Hspace' & Hhero).
      destruct (logEvent_wellFormed stack (js "view") (js "section") sectionId w
                  Hbuffer eq_refl eq_refl Hwf') as (w1 & Hrun & Hbuffer1).
      destruct (logEvent_console (S (S stack)) (js "view") (js "section") sectionId w)
        as (nested & Hconsole & Hnested).
      rewrite Hrun in Hconsole |- *. cbn [snd] in Hconsole.
      destruct (IH w1 Hbuffer1 Hplain) as (w' & Hrest & Hbuffer' & Hviews).
      exists w'. split; [exact Hrest|]. split; [exact Hbuffer'|].
      rewrite Hviews, Hconsole, heroViews_app, heroViews_cons.
      rewrite (isHeroView_section _ _ Hspace'), Hhero.
      rewrite (heroViews_linkClicks nested Hnested).
      destruct (bool_decide (Element.id (target entry) = js "hero")); simpl; lia.
    + exact (IH w Hbuffer Hplain).
Qed.

(** C3, as the code has it. On a page whose stored buffer is well-formed
    UTF-16 and whose section ids are well formed and hold no space, every
    run of the observer's callback returns, and every entry of every batch
    that reports the hero section as intersecting logs one
    [view, section:hero] record, the first time and every later time; an
    entry that reports it as not intersecting, or that is about another
    section, logs none. *)
Theorem sectionObserver_logs_every_view (stack : nat)
        (batches : list (list IntersectionObserverEntry)) (w : World) :
  isWellFormed (buffer w) = true ->
  forallb (forallb plainId) batches = true ->
  heroViews (console (snd (deliver (S (S (S (S (S stack))))) batches w)))
  = heroViews (console w) + length (List.filter reportsHero (concat batches)).
Proof.
  revert w. induction batches as [|entries batches IH]; intros w Hbuffer Hplain.
  - simpl. lia.
  - cbn [forallb] in Hplain. apply andb_true_iff in Hplain as [Hentries Hplain].
    destruct (sectionObserverCallback_batch stack entries w Hbuffer Hentries)
      as (w1 & Hrun & Hbuffer1 & Hviews).
    unfold deliver in *. cbn [forEach concat]. unfold bind, runListener at 1.
    rewrite Hrun, (IH w1 Hbuffer1 Hplain), Hviews, List.filter_app, length_app. lia.
Qed.

(** ** The listeners of the page *)

(** One logged event while no click listener is registered: the world it
    leads to. *)
Lemma logEvent_unregistered (stack : nat) (eventType objectType objectDescription : jsstring)
      (w : World) :
  clickListener w = false ->
  isWellFormed (buffer w) = true ->
  isWellFormed eventType = true ->
  isWellFormed objectType = true ->
  isWellFormed objectDescription = true ->
  let line := logLine (clock w (clockReads w)) eventType objectType objectDescription in
  let w1 := appended line (withConsole line (tick w)) in
  exists encoded,
    encodeURIComponent (buffer w ++ line ++ LF) = Normal encoded
    /\ logEvent (S (S (S stack))) eventType objectType objectDescription w
       = (Normal tt,
          if (10000 <? jslength (buffer w))%Z
          then withItem storageKey []
                 (withDownload (exportLink (clock w (S (clockReads w))) encoded) (tick w1))
          else w1).
Proof.
  intros Hlistener Hbuffer Hkind Htype Hdescription line w1.
  assert (Hwf : isWellFormed (buffer w ++ line ++ LF) = true).
  { apply isWellFormed_app; [exact Hbuffer|].
    apply isWellFormed_app; [|reflexivity].
    apply logLine_wellFormed; assumption. }
  destruct (encodeURIComponent_returns _ Hwf) as [encoded Henc].
  exists encoded. split; [exact Henc|].
  rewrite logEvent_step. fold line. rewrite saveEventToFile_step.
  change (buffer (withConsole line (tick w))) with (buffer w). fold w1.
  destruct (10000 <? jslength (buffer w))%Z; [|reflexivity].
  rewrite downloadTrackingData_step.
  assert (Hb1 : buffer w1 = buffer w ++ line ++ LF)
    by exact (buffer_appended line (withConsole line (tick w))).
  rewrite Hb1, Henc.
  change (clickListener w1) with (clickListener w). rewrite Hlistener. reflexivity.
Qed.

(** On a page just loaded (no click listener yet) whose buffer and title
    are well formed, the DOMContentLoaded listener returns normally: it has
    logged the page view first, then registered the click listener, put
    every section under observation and given every image a load listener.
    An export the page view triggers runs before the click listener
    exists, so it downloads one file and logs no click of its own. *)
Theorem onDOMContentLoaded_registers (stack : nat) (document : Document) (w : World) :
  clickListener w = false ->
  isWellFormed (buffer w) = true ->
  isWellFormed (title document) = true ->
  let line := logLine (clock w (clockReads w)) (js "view") (js "page") (title document) in
  exists w',
    onDOMContentLoaded (S (S (S (S stack)))) document w = (Normal tt, w')
    /\ clickListener w' = true
    /\ observed w' = observed w ++ sections document
    /\ loadListeners w' = loadListeners w ++ images document
    /\ console w' = console w ++ [line]
    /\ beacons w' = beacons w ++ [beaconOf line]
    /\ reported w' = reported w
    /\ if (10000 <? jslength (buffer w))%Z
       then buffer w' = [] /\ length (downloads w') = S (length (downloads w))
       else buffer w' = buffer w ++ line ++ LF /\ downloads w' = downloads w.
Proof.
  intros Hlistener Hbuffer Htitle line.
  destruct (logEvent_unregistered stack (js "view") (js "page") (title document) w
              Hlistener Hbuffer eq_refl eq_refl Htitle) as (encoded & _ & Hrun).
  fold line in Hrun.
  unfold onDOMContentLoaded, call, bind. rewrite Hrun. eexists. split; [reflexivity|].
  destruct (10000 <? jslength (buffer w))%Z.
  - repeat split.
    + apply (buffer_withItem []).
    + cbn. rewrite length_app. simpl. lia.
  - repeat split. exact (buffer_appended line (withConsole line (tick w))).
Qed.

(** When the stored buffer is past the threshold and holds a lone
    surrogate, the page view's export throws out of the DOMContentLoaded
    listener before anything is registered: no click listener, no observed
    section, no load listener, no file. The buffer has taken the page view
    and is still ill formed and past the threshold, so every later load of
    the page ends the same way. *)
Theorem onDOMContentLoaded_poisoned (stack : nat) (document : Document) (w : World) :
  isWellFormed (buffer w) = false ->
  (10000 < jslength (buffer w))%Z ->
  exists w',
    onDOMContentLoaded (S (S (S (S stack)))) document w = (Throw URIError, w')
    /\ clickListener w' = clickListener w
    /\ observed w' = observed w
    /\ loadListeners w' = loadListeners w
    /\ downloads w' = downloads w
    /\ isWellFormed (buffer w') = false
    /\ (10000 < jslength (buffer w'))%Z.
Proof.
  intros Hill Hlong.
  set (line := logLine (clock w (clockReads w)) (js "view") (js "page") (title document)).
  set (w1 := appended line (withConsole line (tick w))).
  assert (Hb1 : buffer w1 = buffer w ++ line ++ LF)
    by exact (buffer_appended line (withConsole line (tick w))).
  assert (Hill1 : isWellFormed (buffer w1) = false).
  { rewrite Hb1. apply isWellFormed_app_false; [exact Hill|]. apply beginsPlainly_logLine. }
  assert (Hrun : logEvent (S (S (S stack))) (js "view") (js "page") (title document) w
                 = (Throw URIError, w1)).
  { rewrite logEvent_step. fold line. rewrite saveEventToFile_step.
    change (buffer (withConsole line (tick w))) with (buffer w).
    pose proof Hlong as Hlong'. apply Z.ltb_lt in Hlong'. rewrite Hlong'.
    apply downloadTrackingData_throws. exact Hill1. }
  exists w1. unfold onDOMContentLoaded, call, bind. rewrite Hrun.
  repeat split; try exact Hill1.
  rewrite Hb1, jslength_app. pose proof (jslength_nonneg (line ++ LF)). lia.
Qed.

Lemma forEach_app_throw {A} (f : A -> JS unit) (before after : list A) (e : Exn)
      (w w' : World) :
  forEach before f w = (Throw e, w') -> forEach (before ++ after) f w = (Throw e, w').
Proof.
  revert w. induction before as [|x before IH]; intros w Hthrow.
  - discriminate.
  - cbn [forEach app] in *. unfold bind in *.
    destruct (f x w) as [[[]|e0] w0]; [apply IH, Hthrow | exact Hthrow].
Qed.

(** An exception ends the section observer's loop: when the callback
    throws on a batch of entries, it throws the same on any longer batch,
    whose further entries are never looked at. *)
Theorem sectionObserverCallback_aborts (stack : nat)
        (before after : list IntersectionObserverEntry) (e : Exn) (w w' : World) :
  sectionObserverCallback (S stack) before w = (Throw e, w') ->
  sectionObserverCallback (S stack) (before ++ after) w = (Throw e, w').
Proof. apply forEach_app_throw. Qed.

(** The entries of sections that are not intersecting (a section leaving
    the viewport) are skipped: the callback does on a batch what it does on
    the intersecting entries of the batch alone. *)
Theorem sectionObserverCallback_intersecting (stack : nat)
        (entries : list IntersectionObserverEntry) (w : World) :
  sectionObserverCallback (S (S stack)) entries w
  = sectionObserverCallback (S (S stack)) (List.filter isIntersecting entries) w.
Proof.
  unfold sectionObserverCallback, call. revert w.
  induction entries as [|entry entries IH]; intros w; [reflexivity|].
  cbn [List.filter]. destruct (isIntersecting entry) eqn:Hentry.
  - cbn [forEach]. unfold bind. rewrite Hentry.
    destruct (logEvent stack _ _ _ w) as [[[]|e] w0]; [apply IH | reflexivity].
  - cbn [forEach]. unfold bind at 1. rewrite Hentry. apply IH.
Qed.

End Tracking.

(** ** The theorems at concrete elements and pages *)

Example click_on_submitButton :
  console (snd (onDocumentClick asciiOnly 3 submitButton (worldWith ∅ true)))
  = [js "2026-11-02T10:00:00.000Z, click, button:#submit-btn"].
Proof. vm_compute. reflexivity. Qed.

Example page_view_on_load :
  let w := snd (onDOMContentLoaded asciiOnly 3 (mkDocument (js "Home") [heroSection] [])
                                   freshWorld) in
  console w = [js "2026-11-02T10:00:00.000Z, view, page:Home"]
  /\ clickListener w = true
  /\ observed w = [heroSection].
Proof. vm_compute. repeat split. Qed.

Example image_load :
  console (snd (onImageLoad asciiOnly 3 portrait freshWorld))
  = [js "2026-11-02T10:00:00.000Z, view, image:Portrait"].
Proof. vm_compute. reflexivity. Qed.

Example describe_image_without_alt :
  getElementDescription asciiOnly barePortrait = Normal (js "me.jpg").
Proof. vm_compute. reflexivity. Qed.

Example describe_spacerDiv :
  getElementDescription asciiOnly spacerDiv = Normal (js ".spacer.wide").
Proof. vm_compute. reflexivity. Qed.

(** C4 at the submit button: its text and class do not matter. *)
Lemma getElementDescription_id_witness :
  Element.id submitButton <> []
  /\ getElementDescription asciiOnly submitButton = Normal (js "#submit-btn").
Proof.
  split; [discriminate|].
  apply (getElementDescription_id asciiOnly submitButton). discriminate.
Defined.

(** C5 at a link whose trimmed text has 50 code units. *)
Lemma getElementDescription_text_witness :
  Element.id storyLink = []
  /\ trim (Element.textContent storyLink) <> []
  /\ getElementDescription asciiOnly storyLink = Normal (js "Read the full story about o...").
Proof.
  split; [reflexivity|]. split; [discriminate|].
  apply (getElementDescription_text asciiOnly storyLink); [reflexivity | discriminate].
Defined.

(** C10 at a div that holds white space only, and at the link above. *)
Lemma getElementDescription_blank_text_witness :
  getElementDescription asciiOnly spacerDiv = Normal (js ".spacer.wide")
  /\ exists description,
       getElementDescription asciiOnly storyLink = Normal description
       /\ length description <= 30.
Proof.
  split.
  - apply (proj1 (getElementDescription_blank_text asciiOnly spacerDiv eq_refl));
      [discriminate | reflexivity].
  - apply (proj2 (getElementDescription_blank_text asciiOnly storyLink eq_refl)).
    discriminate.
Defined.

(** C8 at the first two events of a fresh page. *)
Lemma buffer_append_only_witness :
  downloads (snd (logAll asciiOnly 3 firstEvents freshWorld)) = downloads freshWorld
  /\ buffer (snd (logAll asciiOnly 3 (take 2 firstEvents) freshWorld))
     = buffer freshWorld
         ++ asBuffer (expectedLines (clock freshWorld) (clockReads freshWorld)
                                    (take 2 firstEvents)).
Proof.
  split; [reflexivity|].
  apply (buffer_append_only asciiOnly 1 firstEvents freshWorld 2). reflexivity.
Defined.

Example buffer_after_firstEvents :
  buffer (snd (logAll asciiOnly 3 firstEvents freshWorld))
  = js "2026-11-02T10:00:00.000Z, view, page:Home" ++ LF
    ++ js "2026-11-02T10:00:00.001Z, click, link:About" ++ LF.
Proof. vm_compute. reflexivity. Qed.

(** C3, as the claim states it, fails: the hero section comes into view,
    leaves and comes back, one callback each, and the record is logged a
    second time. *)
Lemma hero_view_logged_again :
  heroViews (console (snd (deliver asciiOnly 8 [[heroEnters]] freshWorld))) = 1
  /\ heroViews (console (snd (deliver asciiOnly 8 [[heroEnters]; [heroLeaves]; [heroEnters]]
                                      freshWorld))) = 2.
Proof. split; vm_compute; reflexivity. Qed.

(** C3, as the code has it, at three callbacks on a page whose buffer is
    past the threshold: the first batch reports two sections coming into
    view, the second the hero section leaving, the third its return. *)
Lemma sectionObserver_logs_every_view_witness :
  isWellFormed (buffer fullWorld) = true
  /\ heroViews (console (snd (deliver asciiOnly 12
                                      [[introEnters; heroEnters]; [heroLeaves]; [heroEnters]]
                                      fullWorld)))
     = 2.
Proof.
  split; [vm_compute; reflexivity|].
  apply (sectionObserver_logs_every_view asciiOnly 7
           [[introEnters; heroEnters]; [heroLeaves]; [heroEnters]] fullWorld).
  - vm_compute. reflexivity.
  - vm_compute. reflexivity.
Defined.

(** Where an earlier entry of the batch throws, the entry of the hero
    section is never reached: on the poisoned buffer the batch logs the
    intro section and no hero view, and the browser reports URIError. *)
Example hero_view_dropped :
  let w := snd (deliver asciiOnly 12 [[introEnters; heroEnters]] poisonedWorld) in
  heroViews (console w) = 0 /\ length (console w) = 1 /\ reported w = [URIError].
Proof. vm_compute. repeat split. Qed.

(** *** Further theorems at concrete elements and pages *)

(** A well-formed record on the full buffer: exported, buffer empty. *)
Lemma saveEventToFile_threshold_witness :
  isWellFormed (buffer fullWorld ++ aboutRecord ++ LF) = true
  /\ exists w',
       saveEventToFile asciiOnly 6 aboutRecord fullWorld = (Normal tt, w')
       /\ buffer w' = [].
Proof.
  split; [vm_compute; reflexivity|].
  destruct (saveEventToFile_threshold asciiOnly 4 aboutRecord fullWorld) as [w' [Hrun Hcase]];
    [vm_compute; reflexivity|].
  exists w'. split; [exact Hrun|].
  destruct (decide (10000 < jslength (buffer fullWorld))%Z) as [_|Hshort].
  - exact (proj1 Hcase).
  - exfalso. apply Hshort. vm_compute. reflexivity.
Defined.

(** A div of class card is a card. *)
Lemma determineElementType_rules_witness :
  Element.className cardDiv = ClassString (js "card")
  /\ determineElementType asciiOnly cardDiv = Normal (js "card").
Proof.
  split; [reflexivity|].
  exact (determineElementType_rules asciiOnly cardDiv (js "card") eq_refl).
Defined.

(** The story link has a category. *)
Lemma determineElementType_total_witness :
  exists category,
    determineElementType asciiOnly storyLink = Normal category /\ category <> [].
Proof.
  apply (determineElementType_total asciiOnly storyLink (js "more") eq_refl). discriminate.
Defined.

(** The story link is a link, the submit button a button. *)
Lemma determineElementType_link_button_witness :
  determineElementType asciiOnly storyLink = Normal (js "link")
  /\ determineElementType asciiOnly submitButton = Normal (js "button").
Proof.
  split.
  - exact (proj1 (determineElementType_link_button asciiOnly storyLink) eq_refl).
  - exact (proj2 (determineElementType_link_button asciiOnly submitButton) eq_refl).
Defined.

(** The path of the logo: TypeError, and a [className] that is no string. *)
Lemma determineElementType_throws_witness :
  determineElementType asciiOnly logoPath = Throw TypeError
  /\ exists baseVal, Element.className logoPath = SVGAnimatedString baseVal.
Proof.
  split; [vm_compute; reflexivity|].
  apply (determineElementType_throws asciiOnly logoPath TypeError). vm_compute. reflexivity.
Defined.

(** The export of the full buffer on 2 November 2026. *)
Lemma downloadTrackingData_file_witness :
  exists encoded nested w',
    downloadTrackingData asciiOnly 1 fullWorld = (Normal tt, w')
    /\ downloads w'
       = downloads fullWorld ++ nested
           ++ [mkDownload (js "tracking_data_2026-11-02.txt")
                          (js "data:text/plain;charset=utf-8," ++ encoded)]
    /\ percentDecode encoded = utf8 (buffer fullWorld)
    /\ buffer w' = [].
Proof.
  apply (downloadTrackingData_file asciiOnly 0 fullWorld).
  - vm_compute. reflexivity.
  - vm_compute. reflexivity.
  - vm_compute. split; discriminate.
Defined.

(** A click on the About link, logged on a fresh page. *)
Lemma logEvent_returns_witness :
  exists w' nested later,
    logEvent asciiOnly 3 (js "click") (js "link") (js "About") freshWorld = (Normal tt, w')
    /\ saveEventToFile asciiOnly 2 aboutRecord (withConsole aboutRecord (tick freshWorld))
       = (Normal tt, w')
    /\ console w' = console freshWorld ++ aboutRecord :: nested
    /\ Forall isLinkClick nested
    /\ beacons w'
       = beacons freshWorld
           ++ (js "/tracking-endpoint", mkBlob (aboutRecord ++ LF) (js "text/plain")) :: later.
Proof.
  apply (logEvent_returns asciiOnly 0 (js "click") (js "link") (js "About") freshWorld);
    reflexivity.
Defined.

(** The full buffer with the listener registered: a file before the
    outer one, and the click on the export link on the console. *)
Lemma export_reenters_witness :
  clickListener fullWorld = true
  /\ exists encoded inner later,
       encodeURIComponent (buffer fullWorld ++ aboutRecord ++ LF) = Normal encoded
       /\ downloads (snd (saveEventToFile asciiOnly 14 aboutRecord fullWorld))
          = downloads fullWorld ++ inner
              ++ [exportLink (clock fullWorld (clockReads fullWorld)) encoded]
       /\ inner <> []
       /\ console (snd (saveEventToFile asciiOnly 14 aboutRecord fullWorld))
          = console fullWorld
              ++ logLine (clock fullWorld (S (clockReads fullWorld)))
                   (js "click") (js "link") (js "a") :: later.
Proof.
  split; [reflexivity|].
  apply (export_reenters asciiOnly 8 aboutRecord fullWorld).
  - reflexivity.
  - vm_compute. reflexivity.
  - vm_compute. reflexivity.
Defined.

(** The same record before the listener is registered: one file. *)
Lemma export_once_witness :
  clickListener returningWorld = false
  /\ exists encoded,
       encodeURIComponent (buffer returningWorld ++ aboutRecord ++ LF) = Normal encoded
       /\ downloads (snd (saveEventToFile asciiOnly 14 aboutRecord returningWorld))
          = downloads returningWorld
              ++ [exportLink (clock returningWorld (clockReads returningWorld)) encoded].
Proof.
  split; [reflexivity|].
  apply (export_once asciiOnly 12 aboutRecord returningWorld).
  - reflexivity.
  - vm_compute. reflexivity.
  - vm_compute. reflexivity.
Defined.

(** The theme setting survives an export. *)
Lemma saveEventToFile_frame_witness :
  js "theme" <> storageKey
  /\ localStorage (snd (saveEventToFile asciiOnly 14 aboutRecord themedWorld)) !! js "theme"
     = Some (js "dark").
Proof.
  split; [discriminate|].
  apply (saveEventToFile_frame asciiOnly 14 aboutRecord (js "theme") themedWorld).
  discriminate.
Defined.

(** A blank, a comma, an accented letter and an emoji. *)
Lemma percentDecode_encodeURIComponent_witness :
  isString (js "a b," ++ [233; 55357; 56832]%N) = true
  /\ percentDecode (js "a%20b%2C%C3%A9%F0%9F%98%80") = utf8 (js "a b," ++ [233; 55357; 56832]%N).
Proof.
  split; [reflexivity|].
  apply (percentDecode_encodeURIComponent (js "a b," ++ [233; 55357; 56832]%N));
    reflexivity.
Defined.

(** The describer makes an ill-formed description out of well-formed text:
    the cut at 27 code units splits the surrogate pair. *)
Lemma getElementDescription_splits_pair :
  isWellFormed (Element.textContent emojiParagraph) = true
  /\ getElementDescription asciiOnly emojiParagraph = Normal cutDescription
  /\ isWellFormed cutDescription = false.
Proof. repeat split; vm_compute; reflexivity. Qed.

(** *** The describer at concrete elements *)

(** The story link: two blanks on either side of its 50 code units. *)
Lemma getElementDescription_trimmed_witness :
  exists lead text trail,
    Element.textContent storyLink = lead ++ text ++ trail
    /\ forallb isWhiteSpace lead = true
    /\ forallb isWhiteSpace trail = true
    /\ (exists c rest, text = c :: rest /\ isWhiteSpace c = false)
    /\ (exists c rest, text = rest ++ [c] /\ isWhiteSpace c = false)
    /\ getElementDescription asciiOnly storyLink
       = Normal (if decide (30 < length text) then take 27 text ++ js "..." else text).
Proof.
  apply (getElementDescription_trimmed asciiOnly storyLink); reflexivity.
Defined.

(** The spacer div: two class names. *)
Lemma getElementDescription_classes_witness :
  forallb isWhiteSpace (Element.textContent spacerDiv) = true
  /\ getElementDescription asciiOnly spacerDiv = Normal (js ".spacer.wide").
Proof.
  split; [reflexivity|].
  apply (getElementDescription_classes asciiOnly spacerDiv 115%N (js "pacer wide"));
    reflexivity.
Defined.

(** An image without alt text is described by its file name. *)
Lemma getElementDescription_src_witness :
  exists before description,
    getElementDescription asciiOnly barePortrait = Normal description
    /\ js "https://example.org/img/me.jpg" = before ++ description
    /\ (47%N ∉ description)
    /\ (before = [] \/ exists rest, before = rest ++ [47%N]).
Proof.
  apply (getElementDescription_src asciiOnly barePortrait
           (js "https://example.org/img/me.jpg")); try reflexivity.
  intros c className. simpl. discriminate.
Defined.

(** The paragraph with the emoji: well-formed text, ill-formed
    description. *)
Lemma getElementDescription_cuts_pair_witness :
  isWellFormed (Element.textContent emojiParagraph) = true
  /\ exists description,
       getElementDescription asciiOnly emojiParagraph = Normal description
       /\ description
          = take 26 (trim (Element.textContent emojiParagraph)) ++ 55357%N :: js "..."
       /\ isWellFormed description = false
       /\ encodeURIComponent description = Throw URIError.
Proof.
  split; [reflexivity|].
  apply (getElementDescription_cuts_pair asciiOnly emojiParagraph 55357%N).
  - reflexivity.
  - vm_compute. lia.
  - reflexivity.
  - reflexivity.
Defined.

(** *** The click listener at concrete elements *)

(** A click on the logo is lost. *)
Lemma onDocumentClick_lost_witness :
  determineElementType asciiOnly logoSvg = Throw TypeError
  /\ onDocumentClick asciiOnly 5 logoSvg (worldWith ∅ true)
     = (Throw TypeError, worldWith ∅ true).
Proof.
  split; [vm_compute; reflexivity|].
  apply (onDocumentClick_lost asciiOnly 4 logoSvg TypeError (worldWith ∅ true)).
  left. vm_compute. reflexivity.
Defined.

(** A click on the submit button is logged as a button, by its id. *)
Lemma onDocumentClick_logs_witness :
  exists nested,
    console (snd (onDocumentClick asciiOnly 5 submitButton (worldWith ∅ true)))
    = console (worldWith ∅ true)
        ++ logLine (clock (worldWith ∅ true) (clockReads (worldWith ∅ true)))
             (js "click") (classifyByRules asciiOnly submitButton) (js "#submit-btn")
        :: nested
    /\ Forall isLinkClick nested.
Proof.
  apply (onDocumentClick_logs asciiOnly 3 submitButton (js "btn") (js "#submit-btn")
           (worldWith ∅ true)); reflexivity.
Defined.

(** The description keeps the line feeds inside a text: the record of a
    click on a link whose text runs over two lines takes two lines of the
    buffer. *)
Example record_over_two_lines :
  split 10%N (buffer (snd (onDocumentClick asciiOnly 5 twoLineLink (worldWith ∅ true))))
  = [js "2026-11-02T10:00:00.000Z, click, link:Read"; js "      more"; []].
Proof. vm_compute. reflexivity. Qed.

(** *** Persistence at concrete pages *)

(** The first two events of a fresh page, in all three sinks. *)
Lemma sinks_agree_witness :
  downloads (snd (logAll asciiOnly 3 firstEvents freshWorld)) = downloads freshWorld
  /\ let lines := expectedLines (clock freshWorld) (clockReads freshWorld) firstEvents in
     console (snd (logAll asciiOnly 3 firstEvents freshWorld)) = console freshWorld ++ lines
     /\ beacons (snd (logAll asciiOnly 3 firstEvents freshWorld))
        = beacons freshWorld ++ map beaconOf lines
     /\ buffer (snd (logAll asciiOnly 3 firstEvents freshWorld))
        = buffer freshWorld ++ asBuffer lines
     /\ clockReads (snd (logAll asciiOnly 3 firstEvents freshWorld))
        = clockReads freshWorld + length firstEvents.
Proof.
  split; [reflexivity|].
  apply (sinks_agree asciiOnly 1 firstEvents freshWorld). reflexivity.
Defined.

(** The buffer of those two events, read back line by line. *)
Lemma records_read_back_witness :
  forallb oneLine firstEvents = true
  /\ split 10%N (buffer (snd (logAll asciiOnly 3 firstEvents freshWorld)))
     = expectedLines (clock freshWorld) (clockReads freshWorld) firstEvents ++ [[]].
Proof.
  split; [reflexivity|].
  apply (records_read_back asciiOnly 1 firstEvents freshWorld); reflexivity.
Defined.

(** The first record of a fresh page, where nothing is stored yet. *)
Lemma saveEventToFile_missing_key_witness :
  localStorage freshWorld !! storageKey = None
  /\ exists w',
       saveEventToFile asciiOnly 3 aboutRecord freshWorld = (Normal tt, w')
       /\ localStorage w' = <[storageKey := aboutRecord ++ LF]> (localStorage freshWorld)
       /\ downloads w' = downloads freshWorld
       /\ saveEventToFile asciiOnly 3 aboutRecord (withItem storageKey [] freshWorld)
          = (Normal tt, w').
Proof.
  split; [reflexivity|].
  apply (saveEventToFile_missing_key asciiOnly 2 aboutRecord freshWorld). reflexivity.
Defined.


(** The buffer an earlier click on the emoji paragraph left behind: two
    more events, no file. *)
Lemma poisoned_buffer_never_exports_witness :
  isWellFormed (buffer poisonedWorld) = false
  /\ downloads (snd (logAll asciiOnly 6 firstEvents poisonedWorld)) = downloads poisonedWorld
  /\ isWellFormed (buffer (snd (logAll asciiOnly 6 firstEvents poisonedWorld))) = false
  /\ buffer (snd (logAll asciiOnly 6 firstEvents poisonedWorld))
     = buffer poisonedWorld
         ++ asBuffer (expectedLines (clock poisonedWorld) (clockReads poisonedWorld)
                                    firstEvents).
Proof.
  split; [vm_compute; reflexivity|].
  apply (poisoned_buffer_never_exports asciiOnly 4 firstEvents poisonedWorld).
  vm_compute. reflexivity.
Defined.

(** *** The listeners of the page at concrete pages *)

(** The home page opened again with the full buffer of an earlier visit:
    one file, and the listeners registered. *)
Lemma onDOMContentLoaded_registers_witness :
  let line :=
    logLine (clock returningWorld (clockReads returningWorld))
            (js "view") (js "page") (title homePage) in
  exists w',
    onDOMContentLoaded asciiOnly 6 homePage returningWorld = (Normal tt, w')
    /\ clickListener w' = true
    /\ observed w' = observed returningWorld ++ sections homePage
    /\ loadListeners w' = loadListeners returningWorld ++ images homePage
    /\ console w' = console returningWorld ++ [line]
    /\ beacons w' = beacons returningWorld ++ [beaconOf line]
    /\ reported w' = reported returningWorld
    /\ if (10000 <? jslength (buffer returningWorld))%Z
       then buffer w' = [] /\ length (downloads w') = S (length (downloads returningWorld))
       else buffer w' = buffer returningWorld ++ line ++ LF
            /\ downloads w' = downloads returningWorld.
Proof.
  apply (onDOMContentLoaded_registers asciiOnly 2 homePage returningWorld);
    vm_compute; reflexivity.
Defined.

(** The home page opened again with the poisoned buffer: nothing is
    registered. *)
Lemma onDOMContentLoaded_poisoned_witness :
  isWellFormed (buffer poisonedWorld) = false
  /\ exists w',
       onDOMContentLoaded asciiOnly 6 homePage poisonedWorld = (Throw URIError, w')
       /\ clickListener w' = clickListener poisonedWorld
       /\ observed w' = observed poisonedWorld
       /\ loadListeners w' = loadListeners poisonedWorld
       /\ downloads w' = downloads poisonedWorld
       /\ isWellFormed (buffer w') = false
       /\ (10000 < jslength (buffer w'))%Z.
Proof.
  split; [vm_compute; reflexivity|].
  apply (onDOMContentLoaded_poisoned asciiOnly 2 homePage poisonedWorld);
    vm_compute; reflexivity.
Defined.

Lemma completion_of_run {A W} (run : completion A * W) (c : completion A) :
  fst run = c -> run = (c, snd run).
Proof. intros <-. destruct run; reflexivity. Qed.

(** On the poisoned buffer the first entry of a batch throws, and the
    entries after it are dropped. *)
Lemma sectionObserverCallback_aborts_witness :
  fst (sectionObserverCallback asciiOnly 6 [heroEnters] poisonedWorld) = Throw URIError
  /\ sectionObserverCallback asciiOnly 6 [heroEnters; heroLeaves; heroEnters] poisonedWorld
     = (Throw URIError, snd (sectionObserverCallback asciiOnly 6 [heroEnters] poisonedWorld)).
Proof.
  split; [vm_compute; reflexivity|].
  apply (sectionObserverCallback_aborts asciiOnly 5 [heroEnters] [heroLeaves; heroEnters]
           URIError poisonedWorld).
  apply completion_of_run. vm_compute. reflexivity.
Defined.

Example batch_of_three_entries :
  heroViews (console (snd (sectionObserverCallback asciiOnly 6
                             [heroEnters; heroLeaves; heroEnters] freshWorld))) = 2.
Proof. vm_compute. reflexivity. Qed.
